(** * SpeechWorks: trial engine, session lifecycle and view handoff

    A shallow embedding of the AngularJS controllers that run the
    interactive trial practice ([ActivitiesController]) and the session
    lifecycle ([SessionsController]), together with the two slots they share
    on [$rootScope] ([pendingActivity], [returnToSessionId]).

    Conventions of the embedding:
    - a controller function that mutates [$scope] / [$rootScope] is a function
      from the state before the call to the state after it;
    - [null] and [undefined] are [None];
    - database keys are [positive] (the schema declares them
      [INT AUTO_INCREMENT PRIMARY KEY]; the built-in samples use 1..11), so an
      id is always truthy and [==] on ids is [Pos.eqb];
    - counters of trials are [nat], and the counts stored with an assignment
      ([trials_attempted], [trials_correct]) are [N]: they start at 0 and
      are only ever written with the value of such a counter;
    - instants are milliseconds since the epoch, in [Z];
    - [accuracy] is an exact rational; JavaScript's division is total and
      yields [NaN] or an infinity on a zero divisor, which [JsNumber] keeps
      apart from the finite results;
    - toasts, API requests and [$timeout] registrations are appended to a
      chronological trace, and so are the calls of [startActivity()] and the
      writes to the [pendingActivity] slot; the text of a toast is a
      constructor carrying the values the text is built from;
    - a promise is the request in the trace plus one function per callback,
      which takes what the callback has captured;
    - the fields of the session form hold the values that [new Date] and
      [parseInt] read from them; the duration is [None] when [parseInt]
      yields [NaN] (the field is empty or does not start with a number);
      the date is the value of a [datetime-local] field, empty ([None]) or
      an instant;
    - strings are sequences of bytes, and [toLowerCase] and the class [\s]
      are embedded on the ASCII range, where the statuses and categories of
      the schema live;
    - [console.log] is not modelled. *)

From Stdlib Require Import ZArith NArith PArith QArith String Ascii List Bool Lia.
From stdpp Require Import base list.
Import ListNotations.

Local Open Scope string_scope.
Local Open Scope nat_scope.
Local Open Scope list_scope.

(** ** JavaScript values that the controllers hand around *)

Module Js.

(** What a call evaluates to. A function that falls off its end, or runs a
    bare [return;], evaluates to [undefined]. *)
Inductive Value :=
| Undefined
| Null
| Boolean (b : bool)
| Number (n : Z)
| Str (s : string).

(** Result of the [/] operator on numbers. *)
Inductive JsNumber :=
| Finite (q : Q)
| NaN
| Infinity.

Definition is_zero (q : Q) : bool := Qeq_bool q 0.

Definition div (a b : Q) : JsNumber :=
  if is_zero b then (if is_zero a then NaN else Infinity)
  else Finite (a / b).

Definition mul (a : JsNumber) (b : Q) : JsNumber :=
  match a with
  | Finite q => Finite (q * b)
  | NaN => NaN
  | Infinity => if is_zero b then NaN else Infinity
  end.

Definition of_nat (n : nat) : Q := inject_Z (Z.of_nat n).

(** Truthiness of a string: only the empty string is falsy. *)
Definition truthy_string (s : string) : bool :=
  match s with EmptyString => false | _ => true end.

(** Truthiness of a possibly missing count: [undefined], [null] and [0]
    are falsy. *)
Definition truthy_count (x : option N) : bool :=
  match x with
  | Some n => negb (N.eqb n 0)
  | None => false
  end.

(** [x === 0] *)
Definition is_zero_count (x : option N) : bool :=
  match x with
  | Some n => N.eqb n 0
  | None => false
  end.

(** [x > 0]; [undefined > 0] and [null > 0] are false. *)
Definition gt_zero_count (x : option N) : bool :=
  match x with
  | Some n => N.ltb 0 n
  | None => false
  end.

Definition is_upper (c : ascii) : bool :=
  (Nat.leb 65 (nat_of_ascii c) && Nat.leb (nat_of_ascii c) 90)%bool.

Definition lower_ascii (c : ascii) : ascii :=
  if is_upper c then ascii_of_nat (nat_of_ascii c + 32) else c.

(** [String.prototype.toLowerCase] on the ASCII range. *)
Fixpoint toLowerCase (s : string) : string :=
  match s with
  | EmptyString => EmptyString
  | String c rest => String (lower_ascii c) (toLowerCase rest)
  end.

(** The character class [[_\s]] on the ASCII range: underscore, space,
    tab, line feed, vertical tab, form feed and carriage return. *)
Definition underscore_or_space (c : ascii) : bool :=
  let n := nat_of_ascii c in
  (Nat.eqb n 95 || Nat.eqb n 32 || (Nat.leb 9 n && Nat.leb n 13))%bool.

(** [s.replace(/[_\s]/g, '')] *)
Fixpoint strip_underscore_space (s : string) : string :=
  match s with
  | EmptyString => EmptyString
  | String c rest =>
      if underscore_or_space c then strip_underscore_space rest
      else String c (strip_underscore_space rest)
  end.

End Js.

(** ** Data model *)

Record Client := mkClient {
  client_key : positive;
  first_name : string;
  last_name : string }.

Record Activity := mkActivity {
  activity_key : positive;
  activity_name : string;
  category : string }.

Record TrialItem := mkItem {
  word : string;
  phonetic : string;
  position : option string }.

(** A row of [session_activities] as the API returns it. [trials_attempted]
    is [None] when the field is missing. *)
Record SessionActivity := mkSessionActivity {
  sa_key : positive;
  sa_activity_id : positive;
  sa_activity : option Activity;
  trials_attempted : option N;
  trials_correct : option N;
  accuracy_percentage : option Q }.

(** A therapy session as the session cards hold it. [assignedActivities] is
    [None] until [loadSessionActivitiesForCard] has answered. *)
Record Session := mkSession {
  session_key : positive;
  session_client_id : positive;
  session_date : Z;
  duration_minutes : Z;
  status : string;
  assignedActivities : option (list SessionActivity) }.

(** The object [openActivityFromSession] stores in
    [$rootScope.pendingActivity]. *)
Record Pending := mkPending {
  pending_activity : Activity;
  pending_client : option Client;
  pending_session : option Session;
  pending_sessionActivityRecord : option SessionActivity }.

(** The two slots shared by the views. *)
Record RootScope := mkRoot {
  pendingActivity : option Pending;
  returnToSessionId : option positive }.

Definition set_pendingActivity (v : option Pending) (r : RootScope) : RootScope :=
  {| pendingActivity := v; returnToSessionId := returnToSessionId r |}.

Definition set_returnToSessionId (v : option positive) (r : RootScope) : RootScope :=
  {| pendingActivity := pendingActivity r; returnToSessionId := v |}.

(** ** Effects

    Everything a controller does besides updating the scopes is recorded, in
    order, in a trace. *)

Inductive ToastKind := success | error | info | warning.

Inductive Message :=
| ActivityStartedFor (first last : string)
| ActivityCompleted (accuracy : Js.JsNumber)
| ActivityCompletedNotSaved (accuracy : Js.JsNumber)
| SessionMustBeInProgress
| AlreadyCompleted (accuracy : Q)
| ClientNotFound
| CannotStartSession (sessionDate : Z)
| SessionUpdated
| SessionScheduled
| SessionStarted
| SessionStartFailed
| StatusUpdatedTo (newStatus : string)
| StatusUpdateFailed
| AutoCompleted
| ReturnedToSession.

Inductive Notes :=
| NoNotes
| ActivityNotes (name : string) (trials correct : nat)
| CompletedNotes (accuracy : Js.JsNumber).

Record ProgressData := mkProgressData {
  pd_client_id : positive;
  pd_record_date : Z;
  pd_category : string;
  pd_accuracy_percentage : Js.JsNumber;
  pd_trials_total : nat;
  pd_notes : Notes }.

Record ActivityUpdate := mkActivityUpdate {
  upd_trials_attempted : nat;
  upd_trials_correct : nat;
  upd_notes : Notes }.

Record SessionUpdate := mkSessionUpdate {
  upd_duration_minutes : option Z;
  upd_session_date : option Z;
  upd_status : option string }.

Inductive ApiRequest :=
| getActivities
| getClients
| getSessions
| createSession (duration : option Z) (date : option Z)
| createProgressRecord (d : ProgressData)
| updateSessionActivity (session_id record_id : positive) (d : ActivityUpdate)
| updateSession (session_id : positive) (d : SessionUpdate)
| startSessionRequest (session_id : positive).

(** The callbacks handed to [$timeout]. *)
Inductive Task :=
| PendingCheck
| ReturnToSession (session_id : positive)
| NavigateToActivities.

Inductive Event :=
| Toast (k : ToastKind) (m : Message)
| Api (r : ApiRequest)
| Deferred (delay : nat) (t : Task)
| TrialRunStarted (a : option Activity) (c : option Client)
| PendingPublished (p : Pending)
| PendingCleared.

(** ** Scopes *)

(** The counters and the word list of one practice pass. *)
Record TrialState := mkTrial {
  activityWords : list TrialItem;
  currentWord : option TrialItem;
  currentWordIndex : nat;
  currentTrial : nat;
  totalTrials : nat;
  trialsCorrect : nat }.

Record ActivitiesScope := mkActivitiesScope {
  activities : list Activity;
  selectedCategory : string;
  showActivitySession : bool;
  selectedActivity : option Activity;
  activityClient : option Client;
  sourceSession : option Session;
  sourceSessionActivityRecord : option SessionActivity;
  trial : TrialState }.

Record SessionForm := mkSessionForm {
  form_session_date : option Z;
  form_duration_minutes : option Z;
  form_status : string }.

Record SessionsScope := mkSessionsScope {
  sessions : list Session;
  clients : list Client;
  allClients : list Client;
  showSessionModal : bool;
  editingSession : option Session;
  sessionForm : SessionForm;
  originalSessionDate : option Z }.

Record World := mkWorld {
  root : RootScope;
  acts : ActivitiesScope;
  sess : SessionsScope;
  currentView : string;
  trace : list Event }.

Definition with_root (f : RootScope -> RootScope) (w : World) : World :=
  {| root := f (root w); acts := acts w; sess := sess w;
     currentView := currentView w; trace := trace w |}.

Definition with_acts (f : ActivitiesScope -> ActivitiesScope) (w : World) : World :=
  {| root := root w; acts := f (acts w); sess := sess w;
     currentView := currentView w; trace := trace w |}.

Definition with_sess (f : SessionsScope -> SessionsScope) (w : World) : World :=
  {| root := root w; acts := acts w; sess := f (sess w);
     currentView := currentView w; trace := trace w |}.

Definition setView (v : string) (w : World) : World :=
  {| root := root w; acts := acts w; sess := sess w;
     currentView := v; trace := trace w |}.

Definition emit (e : Event) (w : World) : World :=
  {| root := root w; acts := acts w; sess := sess w;
     currentView := currentView w; trace := trace w ++ [e] |}.

Definition with_trial (f : TrialState -> TrialState) (s : ActivitiesScope) : ActivitiesScope :=
  {| activities := activities s; selectedCategory := selectedCategory s;
     showActivitySession := showActivitySession s;
     selectedActivity := selectedActivity s; activityClient := activityClient s;
     sourceSession := sourceSession s;
     sourceSessionActivityRecord := sourceSessionActivityRecord s;
     trial := f (trial s) |}.

(** First element of a list that satisfies [p]: the [for] loops that scan
    for an id and [break], and [Array.prototype.find]. *)
Fixpoint find_first {A} (p : A -> bool) (l : list A) : option A :=
  match l with
  | [] => None
  | x :: rest => if p x then Some x else find_first p rest
  end.

(** ** The trial engine (ActivitiesController) *)

Module TrialEngine.

(** [resetActivityState] *)
Definition resetActivityState (t : TrialState) : TrialState :=
  {| activityWords := activityWords t;
     currentWord := None;
     currentWordIndex := 0;
     currentTrial := 0;
     totalTrials := totalTrials t;
     trialsCorrect := 0 |}.

(** [temp = a[i]; a[i] = a[j]; a[j] = temp] with both indices in range. *)
Definition swap (l : list TrialItem) (i j : nat) : list TrialItem :=
  match l !! i, l !! j with
  | Some x, Some y => <[j:=x]> (<[i:=y]> l)
  | _, _ => l
  end.

(** The loop of [shuffleWords]: [i] runs from [length - 1] down to 1 and
    [rnd i] stands for the draw [Math.random()] made at that [i]; the
    index [j = Math.floor(Math.random() * (i + 1))] is any of [0..i]. *)
Fixpoint shuffle_from (rnd : nat -> nat) (i : nat) (l : list TrialItem) : list TrialItem :=
  match i with
  | 0 => l
  | S i' => shuffle_from rnd i' (swap l i (rnd i mod (i + 1)))
  end.

Definition shuffleWords (rnd : nat -> nat) (t : TrialState) : TrialState :=
  {| activityWords := shuffle_from rnd (length (activityWords t) - 1) (activityWords t);
     currentWord := currentWord t;
     currentWordIndex := currentWordIndex t;
     currentTrial := currentTrial t;
     totalTrials := totalTrials t;
     trialsCorrect := trialsCorrect t |}.

(** [nextWord] *)
Definition nextWord (t : TrialState) : TrialState :=
  if (currentWordIndex t <? length (activityWords t)) && (currentTrial t <? totalTrials t)
  then {| activityWords := activityWords t;
          currentWord := activityWords t !! currentWordIndex t;
          currentWordIndex := S (currentWordIndex t);
          currentTrial := currentTrial t;
          totalTrials := totalTrials t;
          trialsCorrect := trialsCorrect t |}
  else {| activityWords := activityWords t;
          currentWord := None;
          currentWordIndex := currentWordIndex t;
          currentTrial := currentTrial t;
          totalTrials := totalTrials t;
          trialsCorrect := trialsCorrect t |}.

Definition set_totalTrials (n : nat) (t : TrialState) : TrialState :=
  {| activityWords := activityWords t;
     currentWord := currentWord t;
     currentWordIndex := currentWordIndex t;
     currentTrial := currentTrial t;
     totalTrials := n;
     trialsCorrect := trialsCorrect t |}.

(** [startActivity] *)
Definition startActivity (rnd : nat -> nat) (t : TrialState) : TrialState :=
  nextWord (shuffleWords rnd (set_totalTrials (Nat.min (length (activityWords t)) 10) t)).

(** [$scope.recordResponse]: the value the call evaluates to, and the
    state after it. *)
Definition recordResponse (isCorrect : bool) (t : TrialState) : Js.Value * TrialState :=
  if totalTrials t <=? currentTrial t then (Js.Undefined, t)
  else
    let t1 := {| activityWords := activityWords t;
                 currentWord := currentWord t;
                 currentWordIndex := currentWordIndex t;
                 currentTrial := S (currentTrial t);
                 totalTrials := totalTrials t;
                 trialsCorrect := if isCorrect then S (trialsCorrect t) else trialsCorrect t |} in
    if currentTrial t1 <? totalTrials t1 then (Js.Undefined, nextWord t1)
    else (Js.Undefined,
          {| activityWords := activityWords t1;
             currentWord := None;
             currentWordIndex := currentWordIndex t1;
             currentTrial := currentTrial t1;
             totalTrials := totalTrials t1;
             trialsCorrect := trialsCorrect t1 |}).

(** [$scope.resetActivity] *)
Definition resetActivity (rnd : nat -> nat) (t : TrialState) : TrialState :=
  startActivity rnd (resetActivityState t).

(** A sequence of answers given one after the other. *)
Definition recordResponses (answers : list bool) (t : TrialState) : TrialState :=
  fold_left (fun t b => snd (recordResponse b t)) answers t.

End TrialEngine.

(** ** ActivitiesController *)

Module ActivitiesController.

Definition sampleActivities : list Activity :=
  [ mkActivity 1 "S Sound Practice - Initial Position" "ARTICULATION";
    mkActivity 2 "R Sound Practice - Vocalic R" "ARTICULATION";
    mkActivity 3 "L Sound Practice - All Positions" "ARTICULATION";
    mkActivity 4 "TH Sound Discrimination" "ARTICULATION";
    mkActivity 5 "Naming Common Objects" "LANGUAGE";
    mkActivity 6 "Following Directions" "LANGUAGE";
    mkActivity 7 "Sentence Building" "LANGUAGE";
    mkActivity 8 "Easy Onset & Slow Speech" "FLUENCY";
    mkActivity 9 "Voice Projection Exercises" "VOICE";
    mkActivity 10 "Minimal Pairs - Final Consonants" "PHONOLOGY";
    mkActivity 11 "Conversation Skills" "PRAGMATICS" ].

(** [getSampleActivities]: the samples, filtered by the selected category
    when there is one. *)
Definition getSampleActivities (s : ActivitiesScope) : list Activity :=
  if Js.truthy_string (selectedCategory s)
  then List.filter (fun a => String.eqb (Js.toLowerCase (category a))
                                   (Js.toLowerCase (selectedCategory s)))
              sampleActivities
  else sampleActivities.

(** S Sound Practice - Initial Position *)
Definition wordList1 : list TrialItem :=
  [
    mkItem "sun" "/sʌn/" (Some "initial");
    mkItem "soap" "/soʊp/" (Some "initial");
    mkItem "sand" "/sænd/" (Some "initial");
    mkItem "sock" "/sɒk/" (Some "initial");
    mkItem "see" "/siː/" (Some "initial");
    mkItem "seal" "/siːl/" (Some "initial");
    mkItem "sail" "/seɪl/" (Some "initial");
    mkItem "sit" "/sɪt/" (Some "initial");
    mkItem "seven" "/ˈsɛvən/" (Some "initial");
    mkItem "soup" "/suːp/" (Some "initial")
  ].

(** R Sound Practice - Vocalic R *)
Definition wordList2 : list TrialItem :=
  [
    mkItem "car" "/kɑːr/" (Some "vocalic -AR");
    mkItem "star" "/stɑːr/" (Some "vocalic -AR");
    mkItem "her" "/hɜːr/" (Some "vocalic -ER");
    mkItem "butter" "/ˈbʌtər/" (Some "vocalic -ER");
    mkItem "bird" "/bɜːrd/" (Some "vocalic -IR");
    mkItem "girl" "/ɡɜːrl/" (Some "vocalic -IR");
    mkItem "door" "/dɔːr/" (Some "vocalic -OR");
    mkItem "floor" "/flɔːr/" (Some "vocalic -OR");
    mkItem "fur" "/fɜːr/" (Some "vocalic -UR");
    mkItem "turn" "/tɜːrn/" (Some "vocalic -UR")
  ].

(** L Sound Practice - All Positions *)
Definition wordList3 : list TrialItem :=
  [
    mkItem "leaf" "/liːf/" (Some "initial");
    mkItem "lamp" "/læmp/" (Some "initial");
    mkItem "lion" "/ˈlaɪən/" (Some "initial");
    mkItem "yellow" "/ˈjeloʊ/" (Some "medial");
    mkItem "balloon" "/bəˈluːn/" (Some "medial");
    mkItem "pillow" "/ˈpɪloʊ/" (Some "medial");
    mkItem "ball" "/bɔːl/" (Some "final");
    mkItem "hill" "/hɪl/" (Some "final");
    mkItem "apple" "/ˈæpəl/" (Some "final");
    mkItem "blue" "/bluː/" (Some "blend")
  ].

(** TH Sound Discrimination *)
Definition wordList4 : list TrialItem :=
  [
    mkItem "think" "/θɪŋk/" (Some "voiceless");
    mkItem "thumb" "/θʌm/" (Some "voiceless");
    mkItem "three" "/θriː/" (Some "voiceless");
    mkItem "bath" "/bæθ/" (Some "voiceless");
    mkItem "this" "/ðɪs/" (Some "voiced");
    mkItem "that" "/ðæt/" (Some "voiced");
    mkItem "the" "/ðə/" (Some "voiced");
    mkItem "mother" "/ˈmʌðər/" (Some "voiced");
    mkItem "brother" "/ˈbrʌðər/" (Some "voiced");
    mkItem "weather" "/ˈwɛðər/" (Some "voiced")
  ].

(** Naming Common Objects *)
Definition wordList5 : list TrialItem :=
  [
    mkItem "chair" "/tʃɛr/" None;
    mkItem "table" "/ˈteɪbəl/" None;
    mkItem "cup" "/kʌp/" None;
    mkItem "spoon" "/spuːn/" None;
    mkItem "book" "/bʊk/" None;
    mkItem "phone" "/foʊn/" None;
    mkItem "clock" "/klɒk/" None;
    mkItem "shoe" "/ʃuː/" None;
    mkItem "hat" "/hæt/" None;
    mkItem "brush" "/brʌʃ/" None
  ].

(** Following Directions *)
Definition wordList6 : list TrialItem :=
  [
    mkItem "Touch your nose" "1-step" None;
    mkItem "Clap your hands" "1-step" None;
    mkItem "Stand up" "1-step" None;
    mkItem "Touch head then sit" "2-step" None;
    mkItem "Jump then touch table" "2-step" None;
    mkItem "Pick up pencil, put on chair" "2-step" None;
    mkItem "Stand, turn, then sit" "3-step" None;
    mkItem "Touch red, blue, yellow" "3-step" None;
    mkItem "Clap, stomp, wave" "3-step" None;
    mkItem "Point door, window, floor" "3-step" None
  ].

(** Sentence Building *)
Definition wordList7 : list TrialItem :=
  [
    mkItem "cat / is / sleeping" "Subject + Verb" None;
    mkItem "dog / runs / fast" "S + V + Adverb" None;
    mkItem "boy / eats / apple" "S + V + Object" None;
    mkItem "girl / has / red ball" "S + V + Adj + O" None;
    mkItem "bird / flies / in sky" "S + V + Prep + O" None;
    mkItem "mom / makes / dinner" "S + V + O" None;
    mkItem "fish / swims / in water" "S + V + Prep + O" None;
    mkItem "baby / is / happy" "S + V + Adj" None;
    mkItem "car / goes / beep" "S + V + Sound" None;
    mkItem "sun / shines / bright" "S + V + Adverb" None
  ].

(** Easy Onset & Slow Speech *)
Definition wordList8 : list TrialItem :=
  [
    mkItem "eeeasy" "Stretch vowel" None;
    mkItem "aaaand" "Stretch vowel" None;
    mkItem "I... am... fine" "Pause words" None;
    mkItem "Hello... how... are... you" "Slow phrasing" None;
    mkItem "My... name... is..." "Slow phrasing" None;
    mkItem "gentle start" "Easy onset" None;
    mkItem "smooth speech" "Continuous flow" None;
    mkItem "Take... your... time" "Paced speech" None;
    mkItem "One... word... at... a... time" "Slow rate" None;
    mkItem "Breathe... and... speak" "Coordinated" None
  ].

(** Voice Projection Exercises *)
Definition wordList9 : list TrialItem :=
  [
    mkItem "Ahhhh" "Sustained /ɑː/" None;
    mkItem "Eeeee" "Sustained /iː/" None;
    mkItem "Ooooh" "Sustained /oʊ/" None;
    mkItem "Hello! (loud)" "Project voice" None;
    mkItem "Hello. (soft)" "Quiet voice" None;
    mkItem "1-2-3-4-5" "Count louder" None;
    mkItem "HEY!" "Call out" None;
    mkItem "Good morning everyone" "Project" None;
    mkItem "Can you hear me?" "Check volume" None;
    mkItem "La-la-la-la-la" "Pitch vary" None
  ].

(** Minimal Pairs - Final Consonants *)
Definition wordList10 : list TrialItem :=
  [
    mkItem "bow / boat" "Final /t/" None;
    mkItem "bee / bead" "Final /d/" None;
    mkItem "key / keep" "Final /p/" None;
    mkItem "row / rope" "Final /p/" None;
    mkItem "see / seat" "Final /t/" None;
    mkItem "go / goat" "Final /t/" None;
    mkItem "tie / tight" "Final /t/" None;
    mkItem "pie / pipe" "Final /p/" None;
    mkItem "tea / team" "Final /m/" None;
    mkItem "day / date" "Final /t/" None
  ].

(** Conversation Skills *)
Definition wordList11 : list TrialItem :=
  [
    mkItem "Hi, how are you?" "Greeting" None;
    mkItem "What is your name?" "Introduction" None;
    mkItem "Nice to meet you!" "Polite response" None;
    mkItem "What do you like?" "Ask interest" None;
    mkItem "That sounds fun!" "Show interest" None;
    mkItem "Tell me more" "Continue topic" None;
    mkItem "I like that too!" "Common ground" None;
    mkItem "What else?" "Keep going" None;
    mkItem "That is cool!" "Enthusiasm" None;
    mkItem "See you later!" "Closing" None
  ].

Definition activityWordLists (id : positive) : option (list TrialItem) :=
  match id with
  | 1 => Some wordList1 | 2 => Some wordList2 | 3 => Some wordList3
  | 4 => Some wordList4 | 5 => Some wordList5 | 6 => Some wordList6
  | 7 => Some wordList7 | 8 => Some wordList8 | 9 => Some wordList9
  | 10 => Some wordList10 | 11 => Some wordList11
  | _ => None
  end%positive.

(** The own keys of the object [categoryDefaults]. The lookup in the code
    is made on a plain object, which also answers to the two lower-case keys
    it inherits, [constructor] and [__proto__], with a value that is no word
    list; the embedding leaves these two categories aside, and the
    properties that depend on the words of an activity of unknown id say
    so. *)
Definition categoryDefaults (cat : string) : option (list TrialItem) :=
  if String.eqb cat "articulation" then Some wordList1
  else if String.eqb cat "language" then Some wordList5
  else if String.eqb cat "fluency" then Some wordList8
  else if String.eqb cat "voice" then Some wordList9
  else if String.eqb cat "phonology" then Some wordList10
  else if String.eqb cat "pragmatics" then Some wordList11
  else None.

(** [getActivityWords]: the list of the activity's id, else the default
    of its category, else the first list. *)
Definition getActivityWords (a : Activity) : list TrialItem :=
  match activityWordLists (activity_key a) with
  | Some l => l
  | None =>
      let cat := Js.toLowerCase
                   (if Js.truthy_string (category a) then category a else "articulation") in
      match categoryDefaults cat with
      | Some l => l
      | None => wordList1
      end
  end.

(** The scope as the controller body initializes it. *)
Definition initialScope : ActivitiesScope :=
  {| activities := []; selectedCategory := "";
     showActivitySession := false;
     selectedActivity := None; activityClient := None;
     sourceSession := None; sourceSessionActivityRecord := None;
     trial := {| activityWords := []; currentWord := None; currentWordIndex := 0;
                 currentTrial := 0; totalTrials := 10; trialsCorrect := 0 |} |}.

Definition on_trial (f : TrialState -> TrialState) (w : World) : World :=
  with_acts (with_trial f) w.

(** [closeActivitySession] *)
Definition closeActivitySession (w : World) : World :=
  with_acts (fun s =>
    {| activities := activities s; selectedCategory := selectedCategory s;
       showActivitySession := false;
       selectedActivity := None; activityClient := None;
       sourceSession := None; sourceSessionActivityRecord := None;
       trial := TrialEngine.resetActivityState (trial s) |}) w.

(** [startActivity()] as the controller calls it: the engine starts on the
    words in scope, and the start is recorded. *)
Definition startActivity (rnd : nat -> nat) (w : World) : World :=
  emit (TrialRunStarted (selectedActivity (acts w)) (activityClient (acts w)))
       (on_trial (TrialEngine.startActivity rnd) w).

(** [$scope.selectActivity] *)
Definition selectActivity (a : Activity) (w : World) : World :=
  with_acts (fun s =>
    {| activities := activities s; selectedCategory := selectedCategory s;
       showActivitySession := true;
       selectedActivity := Some a; activityClient := None;
       sourceSession := sourceSession s;
       sourceSessionActivityRecord := sourceSessionActivityRecord s;
       trial := TrialEngine.resetActivityState
                  {| activityWords := getActivityWords a;
                     currentWord := currentWord (trial s);
                     currentWordIndex := currentWordIndex (trial s);
                     currentTrial := currentTrial (trial s);
                     totalTrials := totalTrials (trial s);
                     trialsCorrect := trialsCorrect (trial s) |} |}) w.

(** [$scope.selectActivityClient] *)
Definition selectActivityClient (rnd : nat -> nat) (c : Client) (w : World) : World :=
  startActivity rnd
    (with_acts (fun s =>
       {| activities := activities s; selectedCategory := selectedCategory s;
          showActivitySession := showActivitySession s;
          selectedActivity := selectedActivity s; activityClient := Some c;
          sourceSession := sourceSession s;
          sourceSessionActivityRecord := sourceSessionActivityRecord s;
          trial := TrialEngine.resetActivityState (trial s) |}) w).

(** [$scope.recordResponse] on the scope of the view. *)
Definition recordResponse (isCorrect : bool) (w : World) : Js.Value * World :=
  (fst (TrialEngine.recordResponse isCorrect (trial (acts w))),
   on_trial (fun t => snd (TrialEngine.recordResponse isCorrect t)) w).

(** The lines that open an activity for a client, shared word for word by
    [openActivityForClient] and [checkPendingActivity]: remember the
    source session, open the activity, reset, select the client, start the
    engine, and only then clear the slot and show the toast. *)
Definition openFor (rnd : nat -> nat) (a : Activity) (c : Client)
    (session : option Session) (record : option SessionActivity) (w : World) : World :=
  let w1 := with_acts (fun s =>
    {| activities := activities s; selectedCategory := selectedCategory s;
       showActivitySession := true;
       selectedActivity := Some a; activityClient := Some c;
       sourceSession := session;
       sourceSessionActivityRecord := record;
       trial := TrialEngine.resetActivityState
                  {| activityWords := getActivityWords a;
                     currentWord := currentWord (trial s);
                     currentWordIndex := currentWordIndex (trial s);
                     currentTrial := currentTrial (trial s);
                     totalTrials := totalTrials (trial s);
                     trialsCorrect := trialsCorrect (trial s) |} |}) w in
  let w2 := startActivity rnd w1 in
  let w3 := emit PendingCleared (with_root (set_pendingActivity None) w2) in
  emit (Toast success (ActivityStartedFor (first_name c) (last_name c))) w3.

Definition find_activity (id : positive) (l : list Activity) : option Activity :=
  find_first (fun a => Pos.eqb (activity_key a) id) l.

(** [openActivityForClient] *)
Definition openActivityForClient (rnd : nat -> nat) (activityId : positive)
    (client : option Client) (session : option Session)
    (record : option SessionActivity) (w : World) : World :=
  match find_activity activityId (activities (acts w)), client with
  | Some a, Some c => openFor rnd a c session record w
  | _, _ => w
  end.

(** [checkPendingActivity] *)
Definition checkPendingActivity (rnd : nat -> nat) (w : World) : World :=
  match pendingActivity (root w) with
  | Some pending =>
      if 0 <? length (activities (acts w)) then
        match find_activity (activity_key (pending_activity pending)) (activities (acts w)),
              pending_client pending with
        | Some a, Some c =>
            openFor rnd a c (pending_session pending)
                    (pending_sessionActivityRecord pending) w
        | _, _ => w
        end
      else w
  | None => w
  end.

(** The listener of [$scope.$watch] on [$rootScope.pendingActivity]. *)
Definition watchPendingActivity (rnd : nat -> nat) (newVal : option Pending) (w : World) : World :=
  match newVal with
  | Some _ =>
      if 0 <? length (activities (acts w)) then checkPendingActivity rnd w else w
  | None => w
  end.

Definition set_activities (l : list Activity) (s : ActivitiesScope) : ActivitiesScope :=
  {| activities := l; selectedCategory := selectedCategory s;
     showActivitySession := showActivitySession s;
     selectedActivity := selectedActivity s; activityClient := activityClient s;
     sourceSession := sourceSession s;
     sourceSessionActivityRecord := sourceSessionActivityRecord s;
     trial := trial s |}.

(** [loadActivities]: the request, and its two callbacks. An empty answer
    and a failed request both fall back on the samples; either way a check
    of the slot is scheduled 100 ms later. *)
Definition loadActivities (w : World) : World := emit (Api getActivities) w.

Definition onActivitiesLoaded (data : list Activity) (w : World) : World :=
  let l := match data with
           | [] => getSampleActivities (acts w)
           | _ => data
           end in
  emit (Deferred 100 PendingCheck) (with_acts (set_activities l) w).

Definition onActivitiesFailed (w : World) : World :=
  emit (Deferred 100 PendingCheck)
       (with_acts (set_activities (getSampleActivities (acts w))) w).

(** The end of the controller body: load, and four delayed checks. *)
Definition retryDelays : list nat := [300; 600; 1000; 1500].

Definition initialize (w : World) : World :=
  fold_left (fun w d => emit (Deferred d PendingCheck) w) retryDelays
            (emit (Api getClients) (loadActivities w)).

(** What the success and failure callbacks of [createProgressRecord] have
    captured from [finishActivity]. *)
Record SaveContinuation := mkSaveContinuation {
  k_accuracy : Js.JsNumber;
  k_sourceSession : option Session;
  k_sourceSessionActivityRecord : option SessionActivity }.

(** How a call ends: it returns, or it throws a [TypeError] on reading a
    property of [null]. *)
Inductive Outcome (A : Type) :=
| Returned (a : A)
| Threw.
Arguments Returned {A} a.
Arguments Threw {A}.

(** [$scope.finishActivity], up to the request it sends. *)
Definition finishActivity (now : Z) (w : World)
    : Outcome (World * option SaveContinuation) :=
  let t := trial (acts w) in
  match activityClient (acts w) with
  | None => Returned (closeActivitySession w, None)
  | Some client =>
      if currentTrial t =? 0 then Returned (closeActivitySession w, None)
      else
        let accuracy :=
          Js.mul (Js.div (Js.of_nat (trialsCorrect t)) (Js.of_nat (currentTrial t))) 100 in
        match selectedActivity (acts w) with
        | None => Threw
        | Some a =>
            let progressData :=
              {| pd_client_id := client_key client;
                 pd_record_date := (now / 86400000)%Z;
                 pd_category := Js.toLowerCase (category a);
                 pd_accuracy_percentage := accuracy;
                 pd_trials_total := currentTrial t;
                 pd_notes := ActivityNotes (activity_name a) (currentTrial t) (trialsCorrect t) |} in
            Returned
              (emit (Api (createProgressRecord progressData)) w,
               Some {| k_accuracy := accuracy;
                       k_sourceSession := sourceSession (acts w);
                       k_sourceSessionActivityRecord := sourceSessionActivityRecord (acts w) |})
        end
  end.

(** The [$timeout] of 500 ms that hands control back to the session view. *)
Definition scheduleReturn (k : SaveContinuation) (w : World) : World :=
  match k_sourceSession k with
  | Some s => emit (Deferred 500 (ReturnToSession (session_key s))) w
  | None => w
  end.

(** The [.then] callback of [createProgressRecord]. *)
Definition onProgressSaved (k : SaveContinuation) (w : World) : World :=
  let w1 :=
    match k_sourceSession k, k_sourceSessionActivityRecord k with
    | Some s, Some r =>
        emit (Api (updateSessionActivity (session_key s) (sa_key r)
                     {| upd_trials_attempted := currentTrial (trial (acts w));
                        upd_trials_correct := trialsCorrect (trial (acts w));
                        upd_notes := CompletedNotes (k_accuracy k) |})) w
    | _, _ => w
    end in
  let w2 := emit (Toast success (ActivityCompleted (k_accuracy k))) w1 in
  scheduleReturn k (closeActivitySession w2).

(** The [.catch] callback of [createProgressRecord]. *)
Definition onProgressFailed (k : SaveContinuation) (w : World) : World :=
  let w1 := emit (Toast info (ActivityCompletedNotSaved (k_accuracy k))) w in
  scheduleReturn k (closeActivitySession w1).

End ActivitiesController.


(** ** SessionsController *)

Module SessionsController.

(** The scope as the controller body initializes it. *)
Definition initialScope : SessionsScope :=
  {| sessions := []; clients := []; allClients := [];
     showSessionModal := false; editingSession := None;
     sessionForm := {| form_session_date := None; form_duration_minutes := None;
                       form_status := "" |};
     originalSessionDate := None |}.

(** [loadSessions]: the request for the session list. *)
Definition loadSessions (w : World) : World := emit (Api getSessions) w.

(** [$scope.isInProgress]: the status, lower-cased and without underscores
    or white space, reads [inprogress]. *)
Definition isInProgress (session : Session) : bool :=
  if Js.truthy_string (status session)
  then String.eqb (Js.strip_underscore_space (Js.toLowerCase (status session))) "inprogress"
  else false.

(** [!sa.trials_attempted || sa.trials_attempted === 0] *)
Definition notAttempted (sa : SessionActivity) : bool :=
  negb (Js.truthy_count (trials_attempted sa)) || Js.is_zero_count (trials_attempted sa).

(** The loop that sets [allCompleted] to false, and breaks, at the first
    assignment without attempted trials. *)
Fixpoint allCompleted (l : list SessionActivity) : bool :=
  match l with
  | [] => true
  | sa :: rest => if notAttempted sa then false else allCompleted rest
  end.

Definition statusOnly (newStatus : string) : SessionUpdate :=
  {| upd_duration_minutes := None; upd_session_date := None; upd_status := Some newStatus |}.

(** [updateSessionStatus]: the request. *)
Definition updateSessionStatus (session : Session) (newStatus : string) (w : World) : World :=
  emit (Api (updateSession (session_key session) (statusOnly newStatus))) w.

Definition set_status (newStatus : string) (s : Session) : Session :=
  {| session_key := session_key s; session_client_id := session_client_id s;
     session_date := session_date s; duration_minutes := duration_minutes s;
     status := newStatus; assignedActivities := assignedActivities s |}.

Definition set_sessions (l : list Session) (s : SessionsScope) : SessionsScope :=
  {| sessions := l; clients := clients s; allClients := allClients s;
     showSessionModal := showSessionModal s; editingSession := editingSession s;
     sessionForm := sessionForm s; originalSessionDate := originalSessionDate s |}.

(** The [.then] callback of [updateSessionStatus]: the session object, which
    is the one held in [$scope.sessions], takes the new status. *)
Definition onSessionStatusUpdated (key : positive) (newStatus : string) (w : World) : World :=
  emit (Toast success AutoCompleted)
    (with_sess (fun s =>
       set_sessions (map (fun x => if Pos.eqb (session_key x) key
                                   then set_status newStatus x else x) (sessions s)) s) w).

(** The condition under which [checkSessionAutoComplete] and the body of
    [checkSessionStatuses] call [updateSessionStatus(session, 'completed')]. *)
Definition shouldComplete (session : Session) : bool :=
  if String.eqb (status session) "in_progress" then
    match assignedActivities session with
    | Some l => if 0 <? length l then allCompleted l else false
    | None => false
    end
  else false.

(** [checkSessionAutoComplete] *)
Definition checkSessionAutoComplete (session : Session) (w : World) : World :=
  if shouldComplete session then updateSessionStatus session "completed" w else w.

(** [checkSessionStatuses]: the same check over every session in scope. *)
Definition checkSessionStatuses (w : World) : World :=
  fold_left (fun w session =>
               if shouldComplete session
               then updateSessionStatus session "completed" w else w)
            (sessions (sess w)) w.

Definition find_client (id : positive) (l : list Client) : option Client :=
  find_first (fun c => Pos.eqb (client_key c) id) l.

(** The scan of [session.assignedActivities] for the record of an activity,
    made when no record was passed. *)
Definition find_record (a : Activity) (session : Session) : option SessionActivity :=
  match assignedActivities session with
  | Some l =>
      find_first (fun sa =>
                    Pos.eqb (sa_activity_id sa) (activity_key a)
                    || match sa_activity sa with
                       | Some x => Pos.eqb (activity_key x) (activity_key a)
                       | None => false
                       end) l
  | None => None
  end.

(** [sessionActivityRecord && sessionActivityRecord.trials_attempted > 0] *)
Definition alreadyCompleted (sessionActivityRecord : option SessionActivity) : bool :=
  match sessionActivityRecord with
  | Some r => Js.gt_zero_count (trials_attempted r)
  | None => false
  end.

(** [(sessionActivityRecord.accuracy_percentage || 0)] *)
Definition accuracyOrZero (sessionActivityRecord : option SessionActivity) : Q :=
  match sessionActivityRecord with
  | Some r => match accuracy_percentage r with Some q => q | None => 0%Q end
  | None => 0%Q
  end.

(** The client of the session: looked up in [allClients], then in
    [clients]. *)
Definition clientOf (session : Session) (s : SessionsScope) : option Client :=
  match find_client (session_client_id session) (allClients s) with
  | Some c => Some c
  | None => find_client (session_client_id session) (clients s)
  end.

(** [$scope.openActivityFromSession] *)
Definition openActivityFromSession (a : Activity) (session : Session)
    (sessionActivityRecord : option SessionActivity) (w : World) : World :=
  if negb (isInProgress session) then emit (Toast info SessionMustBeInProgress) w
  else if alreadyCompleted sessionActivityRecord
  then emit (Toast info (AlreadyCompleted (accuracyOrZero sessionActivityRecord))) w
  else
    match clientOf session (sess w) with
    | None => emit (Toast error ClientNotFound) w
    | Some client =>
        let saRecord := match sessionActivityRecord with
                        | Some r => Some r
                        | None => find_record a session
                        end in
        let p := {| pending_activity := a; pending_client := Some client;
                    pending_session := Some session;
                    pending_sessionActivityRecord := saRecord |} in
        emit (Deferred 0 NavigateToActivities)
             (emit (PendingPublished p) (with_root (set_pendingActivity (Some p)) w))
    end.

(** The listener of [$scope.$watch] on [$rootScope.returnToSessionId]:
    reload the sessions, clear the flag, tell the operator. *)
Definition watchReturnToSessionId (sessionId : option positive) (w : World) : World :=
  match sessionId with
  | Some _ =>
      emit (Toast info ReturnedToSession)
           (with_root (set_returnToSessionId None) (loadSessions w))
  | None => w
  end.

(** [$scope.closeSessionModal] *)
Definition closeSessionModal (w : World) : World :=
  with_sess (fun s =>
    {| sessions := sessions s; clients := clients s; allClients := allClients s;
       showSessionModal := false; editingSession := None;
       sessionForm := {| form_session_date := None; form_duration_minutes := None;
                         form_status := "" |};
       originalSessionDate := None |}) w.

(** [formatDateTimeForInput] keeps year, month, day, hours and minutes: the
    instant the form shows is the session's, cut to the minute. *)
Definition floorToMinute (d : Z) : Z := (d / 60000 * 60000)%Z.

(** [$scope.editSession]: the form is filled from the session. *)
Definition editSession (session : Session) (w : World) : World :=
  with_sess (fun s =>
    {| sessions := sessions s; clients := clients s; allClients := allClients s;
       showSessionModal := true; editingSession := Some session;
       sessionForm := {| form_session_date := Some (floorToMinute (session_date session));
                         form_duration_minutes := Some (duration_minutes session);
                         form_status := if Js.truthy_string (status session)
                                        then status session else "scheduled" |};
       originalSessionDate := Some (session_date session) |}) w.

(** The instant the window of [saveSession] starts at:
    [sessionForm.session_date || originalSessionDate || editingSession.session_date]. *)
Definition windowStart (s : SessionsScope) (editing : Session) : Z :=
  match form_session_date (sessionForm s) with
  | Some d => d
  | None => match originalSessionDate s with
            | Some d => d
            | None => session_date editing
            end
  end.

(** [sessionDate.getTime() + parseInt(duration_minutes) * 60 * 1000]: an
    instant, or [None] for the invalid date that a duration which is not a
    number gives. *)
Definition windowEnd (s : SessionsScope) (editing : Session) : option Z :=
  match form_duration_minutes (sessionForm s) with
  | Some d => Some (windowStart s editing + d * 60 * 1000)%Z
  | None => None
  end.

(** [now < sessionDate || now > sessionEndTime]; a comparison with an
    invalid date is false. *)
Definition outsideWindow (now : Z) (s : SessionsScope) (editing : Session) : bool :=
  (now <? windowStart s editing)%Z
  || match windowEnd s editing with
     | Some sessionEndTime => (sessionEndTime <? now)%Z
     | None => false
     end.

(** The update [saveSession] sends for an edited session. *)
Definition updateData (s : SessionsScope) : SessionUpdate :=
  {| upd_duration_minutes := form_duration_minutes (sessionForm s);
     upd_session_date := match form_session_date (sessionForm s) with
                         | Some d => Some d
                         | None => originalSessionDate s
                         end;
     upd_status := if Js.truthy_string (form_status (sessionForm s))
                   then Some (form_status (sessionForm s)) else None |}.

(** [$scope.saveSession], up to the request it sends. [now] is the value of
    [new Date()]. *)
Definition saveSession (now : Z) (w : World) : World :=
  match editingSession (sess w) with
  | Some editing =>
      if String.eqb (form_status (sessionForm (sess w))) "in_progress"
         && negb (String.eqb (status editing) "in_progress")
         && outsideWindow now (sess w) editing
      then emit (Toast error (CannotStartSession (windowStart (sess w) editing))) w
      else emit (Api (updateSession (session_key editing) (updateData (sess w)))) w
  | None =>
      emit (Api (createSession (form_duration_minutes (sessionForm (sess w)))
                               (form_session_date (sessionForm (sess w))))) w
  end.

(** [$scope.changeSessionStatus] *)
Definition changeSessionStatus (session : Session) (newStatus : string) (w : World) : World :=
  emit (Api (updateSession (session_key session) (statusOnly newStatus))) w.

(** [$scope.startSession] *)
Definition startSession (session : Session) (w : World) : World :=
  emit (Api (startSessionRequest (session_key session))) w.

(** The two callbacks of [startSession]. *)
Definition onSessionStarted (w : World) : World :=
  loadSessions (emit (Toast success SessionStarted) w).

Definition onSessionStartFailed (w : World) : World :=
  emit (Toast error SessionStartFailed) w.

End SessionsController.

(** ** The callbacks of [$timeout] *)

Definition run_task (rnd : nat -> nat) (t : Task) (w : World) : World :=
  match t with
  | PendingCheck => ActivitiesController.checkPendingActivity rnd w
  | ReturnToSession session_id =>
      setView "sessions" (with_root (set_returnToSessionId (Some session_id)) w)
  | NavigateToActivities => setView "activities" w
  end.

(** * Vocabulary of the properties *)

(** The mechanisms of the Activities view that look at the
    [pendingActivity] slot: the check scheduled 100 ms after the catalog has
    loaded, the four delayed checks of the controller body, and the listener
    of the watch, which is called with the value the slot holds. *)
Inductive Mechanism :=
| PostLoadCheck
| Retry (delay : nat)
| WatchFires.

Definition fire (rnd : nat -> nat) (m : Mechanism) (w : World) : World :=
  match m with
  | PostLoadCheck => run_task rnd PendingCheck w
  | Retry _ => run_task rnd PendingCheck w
  | WatchFires =>
      ActivitiesController.watchPendingActivity rnd (pendingActivity (root w)) w
  end.

Definition fire_all (rnd : nat -> nat) (ms : list Mechanism) (w : World) : World :=
  fold_left (fun w m => fire rnd m w) ms w.

Definition is_start (e : Event) : bool :=
  match e with TrialRunStarted _ _ => true | _ => false end.

Definition is_clear (e : Event) : bool :=
  match e with PendingCleared => true | _ => false end.

(** Number of trial runs started along a trace. *)
Definition starts (tr : list Event) : nat := length (List.filter is_start tr).

(** Index of the first event of a trace that satisfies [p]. *)
Fixpoint first_index (p : Event -> bool) (tr : list Event) : option nat :=
  match tr with
  | [] => None
  | e :: rest => if p e then Some 0 else option_map S (first_index p rest)
  end.

(** The catalog in scope holds the activity the request refers to, and the
    request carries a client. *)
Definition resolvable (p : Pending) (s : ActivitiesScope) : Prop :=
  is_Some (ActivitiesController.find_activity
             (activity_key (pending_activity p)) (activities s))
  /\ is_Some (pending_client p).

(** A call of [checkPendingActivity] consumes the request: the slot held
    one, holds none afterwards, and one trial run was started. *)
Definition consumes (rnd : nat -> nat) (w : World) : Prop :=
  is_Some (pendingActivity (root w))
  /\ pendingActivity (root (ActivitiesController.checkPendingActivity rnd w)) = None
  /\ starts (trace (ActivitiesController.checkPendingActivity rnd w)) = S (starts (trace w)).

(** The bounds that every call of the trial engine keeps. *)
Definition within_bounds (t : TrialState) : Prop :=
  currentTrial t <= totalTrials t /\ currentWordIndex t <= length (activityWords t).

(** A trial run that has used up its trials. *)
Definition complete (t : TrialState) : Prop := totalTrials t <= currentTrial t.

(** An assignment counts as attempted when it records at least one trial. *)
Definition attempted (sa : SessionActivity) : Prop :=
  exists n, trials_attempted sa = Some n /\ (0 < n)%N.

(** The session is in progress, has at least one assignment, and all of its
    assignments are attempted. *)
Definition allAttemptedInProgress (session : Session) : Prop :=
  status session = "in_progress"
  /\ exists l, assignedActivities session = Some l /\ l <> [] /\ Forall attempted l.

(** The request by which the session view asks for the status [completed]. *)
Definition completionRequest (session : Session) : Event :=
  Api (updateSession (session_key session) (SessionsController.statusOnly "completed")).

(** The answers of the operator, one after the other, on the scope of the
    Activities view. *)
Definition answer_all (answers : list bool) (w : World) : World :=
  fold_left (fun w b => snd (ActivitiesController.recordResponse b w)) answers w.

(** A trial run that came from a session: the Activities view has opened the
    activity [a] for the client [c] on behalf of the session [s] (the lines
    that [checkPendingActivity] and [openActivityForClient] share), and the
    operator has answered at least once. *)
Definition run_from_session (rnd : nat -> nat) (a : Activity) (c : Client) (s : Session)
    (r : option SessionActivity) (first : bool) (others : list bool) (w0 : World) : World :=
  answer_all (first :: others) (ActivitiesController.openFor rnd a c (Some s) r w0).

(** The operator picks a status in the edit form (the [ng-model] binding of
    [sessionForm.status]). *)
Definition pickStatus (st : string) (w : World) : World :=
  with_sess (fun s =>
    {| sessions := sessions s; clients := clients s; allClients := allClients s;
       showSessionModal := showSessionModal s; editingSession := editingSession s;
       sessionForm := {| form_session_date := form_session_date (sessionForm s);
                         form_duration_minutes := form_duration_minutes (sessionForm s);
                         form_status := st |};
       originalSessionDate := originalSessionDate s |}) w.

(** * Scenarios used to exercise the properties *)

Definition alice : Client := mkClient 1 "Alice" "Martin".

(** A session of 30 minutes, in progress, scheduled at [t], with one
    assignment of the first sample activity that nobody has attempted. *)
Definition assignment1 : SessionActivity :=
  {| sa_key := 7; sa_activity_id := 1; sa_activity := None;
     trials_attempted := Some 0%N; trials_correct := Some 0%N;
     accuracy_percentage := None |}.

Definition session_at (t : Z) (st : string) (l : list SessionActivity) : Session :=
  {| session_key := 3; session_client_id := 1; session_date := t;
     duration_minutes := 30; status := st; assignedActivities := Some l |}.

Definition session1 : Session := session_at 0 "in_progress" [assignment1].

Definition activity1 : Activity := mkActivity 1 "S Sound Practice - Initial Position" "articulation".

(** An activity that the sample catalog does not hold. *)
Definition activity99 : Activity := mkActivity 99 "Activity #99" "unknown".

(** Both views freshly created, the session view knowing the client. *)
Definition world0 : World :=
  {| root := {| pendingActivity := None; returnToSessionId := None |};
     acts := ActivitiesController.initialScope;
     sess := {| sessions := [session1]; clients := [alice]; allClients := [alice];
                showSessionModal := false; editingSession := None;
                sessionForm := {| form_session_date := None; form_duration_minutes := None;
                                  form_status := "" |};
                originalSessionDate := None |};
     currentView := "sessions";
     trace := [] |}.

(** The session view has published a request; the catalog of the Activities
    view is still empty. *)
Definition published : World :=
  SessionsController.openActivityFromSession activity1 session1 (Some assignment1) world0.

Definition published99 : World :=
  SessionsController.openActivityFromSession activity99 session1 (Some assignment1) world0.

Definition no_shuffle : nat -> nat := fun _ => 0.

(** The request that [published] holds. *)
Definition request1 : Pending :=
  {| pending_activity := activity1; pending_client := Some alice;
     pending_session := Some session1;
     pending_sessionActivityRecord := Some assignment1 |}.

(** The first entry of the sample catalog. *)
Definition sample1 : Activity :=
  mkActivity 1 "S Sound Practice - Initial Position" "ARTICULATION".

(** The catalog request of the Activities view has come back empty, so the
    samples are the catalog. *)
Definition loaded : World := ActivitiesController.onActivitiesLoaded [] published.

Definition loaded99 : World := ActivitiesController.onActivitiesLoaded [] published99.

(** The run of [loaded], consumed by the check that follows the load, then
    answered ten times, seven times right. *)
Definition answered : World :=
  answer_all [true; true; false; true; true; false; true; true; false; true]
             (fire no_shuffle PostLoadCheck loaded).

(** An assignment of the first sample activity with five trials on record,
    and a session in progress that holds it. *)
Definition assignment_done : SessionActivity :=
  {| sa_key := 7; sa_activity_id := 1; sa_activity := None;
     trials_attempted := Some 5%N; trials_correct := Some 4%N;
     accuracy_percentage := Some 80%Q |}.

Definition session_done : Session := session_at 0 "in_progress" [assignment_done].

(** A session of 30 minutes scheduled at noon of some day, not started yet,
    and the instants 10 and 40 minutes after its start. *)
Definition noon : Z := 1700049600000.
Definition session_noon : Session := session_at noon "scheduled" [assignment1].
Definition ten_past : Z := (noon + 10 * 60 * 1000)%Z.
Definition forty_past : Z := (noon + 40 * 60 * 1000)%Z.

(** The operator has opened [session_noon] in the edit form and picked the
    status [in_progress]. *)
Definition editing_noon : World :=
  pickStatus "in_progress" (SessionsController.editSession session_noon world0).

(** A session in progress whose two assignments both have trials on
    record, and one where the second assignment has none. *)
Definition session_two_done : Session :=
  session_at 0 "in_progress" [assignment_done; assignment_done].

Definition session_one_pending : Session :=
  session_at 0 "in_progress" [assignment_done; assignment1].

Definition all_mechanisms : list Mechanism :=
  [PostLoadCheck; WatchFires; Retry 300; Retry 600; Retry 1000; Retry 1500].

(** A run over the ten words of the first sample activity, freshly started
    with a shuffle that always draws index 0. *)
Definition fresh_run : TrialState :=
  TrialEngine.resetActivity (fun _ => 0)
    (mkTrial ActivitiesController.wordList1 None 0 0 10 0).

(** The same run after seven right answers and three wrong ones. *)
Definition finished_run : TrialState :=
  TrialEngine.recordResponses
    [true; true; false; true; true; false; true; true; false; true] fresh_run.

(** * Further parts of the controllers *)

From stdpp Require Import pretty.

(** ** Session cards: completion badges, assignment loading, status polling
    (SessionsController) *)

Module SessionCards.

(** The loop of [hasIncompleteActivities], which returns [true] at the first
    assignment without attempted trials. *)
Fixpoint anyNotAttempted (l : list SessionActivity) : bool :=
  match l with
  | [] => false
  | sa :: rest =>
      if SessionsController.notAttempted sa then true else anyNotAttempted rest
  end.

(** [$scope.hasIncompleteActivities] *)
Definition hasIncompleteActivities (session : Session) : bool :=
  match assignedActivities session with
  | Some l => if length l =? 0 then false else anyNotAttempted l
  | None => false
  end.

(** [!sa.activity || !sa.activity.name] *)
Definition lacksActivityInfo (sa : SessionActivity) : bool :=
  match sa_activity sa with
  | Some x => negb (Js.truthy_string (activity_name x))
  | None => true
  end.

Definition set_sa_activity (x : option Activity) (sa : SessionActivity) : SessionActivity :=
  {| sa_key := sa_key sa; sa_activity_id := sa_activity_id sa; sa_activity := x;
     trials_attempted := trials_attempted sa; trials_correct := trials_correct sa;
     accuracy_percentage := accuracy_percentage sa |}.

(** The body of the [forEach] that fills in the activity of an assignment:
    from [$scope.availableActivities] when the id is known there, else with
    a placeholder named after the id. *)
Definition populateActivity (available : list Activity) (sa : SessionActivity) : SessionActivity :=
  if lacksActivityInfo sa then
    match find_first (fun a => Pos.eqb (activity_key a) (sa_activity_id sa)) available with
    | Some localActivity =>
        set_sa_activity
          (Some {| activity_key := activity_key localActivity;
                   activity_name := activity_name localActivity;
                   category := category localActivity |}) sa
    | None =>
        set_sa_activity
          (Some {| activity_key := sa_activity_id sa;
                   activity_name := String.append "Activity #" (pretty (sa_activity_id sa));
                   category := "unknown" |}) sa
    end
  else sa.

Definition set_assignedActivities (l : option (list SessionActivity)) (s : Session) : Session :=
  {| session_key := session_key s; session_client_id := session_client_id s;
     session_date := session_date s; duration_minutes := duration_minutes s;
     status := status s; assignedActivities := l |}.

(** The session object after the [.then] callback of
    [loadSessionActivitiesForCard], and after its [.catch] callback. *)
Definition cardLoaded (available : list Activity) (data : list SessionActivity)
    (session : Session) : Session :=
  set_assignedActivities (Some (map (populateActivity available) data)) session.

Definition cardFailed (session : Session) : Session :=
  set_assignedActivities (Some []) session.

(** The [.then] callback as a whole: the session, which is the object held
    in [$scope.sessions], takes the assignments, and
    [checkSessionAutoComplete] runs on it at once. *)
Definition onSessionActivitiesLoaded (available : list Activity)
    (data : list SessionActivity) (session : Session) (w : World) : World :=
  SessionsController.checkSessionAutoComplete (cardLoaded available data session)
    (with_sess (fun s =>
       SessionsController.set_sessions
         (map (fun x => if Pos.eqb (session_key x) (session_key session)
                        then cardLoaded available data x else x) (sessions s)) s) w).

(** The variable [statusCheckInterval] of the controller, with the intervals
    that [$interval] has running; a handle is the serial number of the
    registration. *)
Record Poller := mkPoller {
  statusCheckInterval : option nat;
  running : list nat;
  issued : nat }.

Definition idlePoller : Poller :=
  {| statusCheckInterval := None; running := []; issued := 0 |}.

(** [startStatusCheckInterval]: nothing when an interval is held; else one
    check at once and a new interval of 30 seconds. *)
Definition startStatusCheckInterval (wp : World * Poller) : World * Poller :=
  match statusCheckInterval (snd wp) with
  | Some _ => wp
  | None =>
      (SessionsController.checkSessionStatuses (fst wp),
       {| statusCheckInterval := Some (issued (snd wp));
          running := running (snd wp) ++ [issued (snd wp)];
          issued := S (issued (snd wp)) |})
  end.

(** [stopStatusCheckInterval], which is also the [$destroy] handler. *)
Definition stopStatusCheckInterval (wp : World * Poller) : World * Poller :=
  match statusCheckInterval (snd wp) with
  | Some h =>
      (fst wp,
       {| statusCheckInterval := None;
          running := List.filter (fun x => negb (Nat.eqb x h)) (running (snd wp));
          issued := issued (snd wp) |})
  | None => wp
  end.

Inductive PollerCall :=
| StartPolling
| StopPolling
| ScopeDestroyed.

Definition call (c : PollerCall) (wp : World * Poller) : World * Poller :=
  match c with
  | StartPolling => startStatusCheckInterval wp
  | StopPolling => stopStatusCheckInterval wp
  | ScopeDestroyed => stopStatusCheckInterval wp
  end.

Definition calls (cs : list PollerCall) (wp : World * Poller) : World * Poller :=
  fold_left (fun wp c => call c wp) cs wp.

End SessionCards.

(** ** Session detail: assigning activities (SessionsController) *)

Module SessionDetail.

(** The part of the scope that the detail view of a session works on.
    [selectedActivityId] is [None] for the empty string. *)
Record DetailScope := mkDetail {
  sessionActivities : list SessionActivity;
  selectedActivityId : option positive;
  selectedSession : option Session;
  availableActivities : list Activity }.

Inductive DetailRequest :=
| addSessionActivity (session_id activity_id : positive) (attempted correct : N).

Inductive DetailToast :=
| ActivityAssigned
| AssignFailed.

(** [$scope.addActivityToSession], up to the request. [ToastService] has the
    methods [show], [success], [error] and [info] only, so the call of
    [ToastService.warning] on an activity that is already assigned throws. *)
Definition addActivityToSession (d : DetailScope)
    : ActivitiesController.Outcome (option DetailRequest) :=
  match selectedActivityId d, selectedSession d with
  | Some id, Some session =>
      if existsb (fun sa => Pos.eqb (sa_activity_id sa) id) (sessionActivities d)
      then ActivitiesController.Threw
      else ActivitiesController.Returned
             (Some (addSessionActivity (session_key session) id 0 0))
  | _, _ => ActivitiesController.Returned None
  end.

(** The activity that the callbacks of the request have captured. *)
Definition capturedActivity (d : DetailScope) : option Activity :=
  match selectedActivityId d with
  | Some id => find_first (fun a => Pos.eqb (activity_key a) id) (availableActivities d)
  | None => None
  end.

Definition set_list_and_selection (l : list SessionActivity) (sel : option positive)
    (d : DetailScope) : DetailScope :=
  {| sessionActivities := l; selectedActivityId := sel;
     selectedSession := selectedSession d;
     availableActivities := availableActivities d |}.

(** The [.then] callback of [addSessionActivity], followed by [.catch]: the
    record of the response is pushed and the selection cleared; when the
    record lacks its activity and no activity was captured, reading
    [selectedActivity.id] throws and the [.catch] callback shows the
    failure instead. *)
Definition onActivityAdded (selectedActivity : option Activity)
    (newSessionActivity : SessionActivity) (d : DetailScope) : DetailScope * DetailToast :=
  if SessionCards.lacksActivityInfo newSessionActivity then
    match selectedActivity with
    | Some a =>
        (set_list_and_selection
           (sessionActivities d
            ++ [SessionCards.set_sa_activity
                  (Some {| activity_key := activity_key a;
                           activity_name := activity_name a;
                           category := category a |}) newSessionActivity])
           None d,
         ActivityAssigned)
    | None => (d, AssignFailed)
    end
  else
    (set_list_and_selection (sessionActivities d ++ [newSessionActivity]) None d,
     ActivityAssigned).

(** The operator picks an activity in the drop-down (the [ng-model] binding
    of [selectedActivityId]). *)
Definition pickActivity (id : positive) (d : DetailScope) : DetailScope :=
  set_list_and_selection (sessionActivities d) (Some id) d.

End SessionDetail.

(** ** ToastService *)

Module ToastService.

(** A toast object. [toast_ref] stands for the identity of the object, which
    is what [indexOf] compares: it is the serial number of the call of
    [show] that made it. [toast_id] is the value of [Date.now()]. *)
Record ToastObject := mkToast {
  toast_ref : nat;
  message : string;
  type : string;
  toast_id : Z }.

Record State := mkState {
  toasts : list ToastObject;
  shown : nat }.

(** [show]: the toast is pushed, and its removal is handed to [$timeout]
    with a delay of 4000 ms; the result names the toast that the callback
    has captured. [type] is [None] when the argument is left out. *)
Definition show (msg : string) (ty : option string) (now : Z) (st : State) : State * nat :=
  ({| toasts := toasts st
                ++ [{| toast_ref := shown st; message := msg;
                       type := match ty with
                               | Some t => if Js.truthy_string t then t else "info"
                               | None => "info"
                               end;
                       toast_id := now |}];
      shown := S (shown st) |},
   shown st).

(** [toasts.indexOf(toast)] followed by [splice(index, 1)] when the index
    is not -1. *)
Fixpoint removeFirst (ref : nat) (l : list ToastObject) : list ToastObject :=
  match l with
  | [] => []
  | t :: rest => if Nat.eqb (toast_ref t) ref then rest else t :: removeFirst ref rest
  end.

(** The callback of the [$timeout]. *)
Definition expire (ref : nat) (st : State) : State :=
  {| toasts := removeFirst ref (toasts st); shown := shown st |}.

(** What happens to the service, in order: a call of [show], or the
    callback of the toast made by the [n]-th call. *)
Inductive Step :=
| Show (msg : string) (ty : option string) (now : Z)
| Expire (n : nat).

Definition step (s : Step) (st : State) : State :=
  match s with
  | Show msg ty now => fst (show msg ty now st)
  | Expire n => expire n st
  end.

Definition steps (ss : list Step) (st : State) : State :=
  fold_left (fun st s => step s st) ss st.

Definition empty : State := {| toasts := []; shown := 0 |}.

End ToastService.

(** * Further vocabulary *)

(** The two lower-case keys that the plain object [categoryDefaults]
    inherits from [Object.prototype]. *)
Definition inheritedKey (cat : string) : bool :=
  String.eqb cat "constructor" || String.eqb cat "__proto__".

(** [getActivityWords] finds a word list for the activity: its id is one of
    the eleven keys of [activityWordLists], or its lower-cased category
    ([articulation] when it has none) is not an inherited key, so that the
    lookup yields a list of the table or nothing, and the first list
    stands in. *)
Definition hasWordList (a : Activity) : Prop :=
  is_Some (ActivitiesController.activityWordLists (activity_key a))
  \/ inheritedKey (Js.toLowerCase (if Js.truthy_string (category a)
                                   then category a else "articulation")) = false.

(** The string holds ASCII characters only, on which [toLowerCase] and the
    class [\s] are what [Js.toLowerCase] and [Js.underscore_or_space]
    say. *)
Fixpoint asciiOnly (s : string) : bool :=
  match s with
  | EmptyString => true
  | String c rest => Nat.ltb (nat_of_ascii c) 128 && asciiOnly rest
  end.

(** A click on the button that assigns the selected activity, with the
    requests sent so far: the call changes nothing in the scope. *)
Definition clickAdd (st : SessionDetail.DetailScope * list SessionDetail.DetailRequest)
    : ActivitiesController.Outcome
        (SessionDetail.DetailScope * list SessionDetail.DetailRequest) :=
  match SessionDetail.addActivityToSession (fst st) with
  | ActivitiesController.Returned (Some r) =>
      ActivitiesController.Returned (fst st, snd st ++ [r])
  | ActivitiesController.Returned None => ActivitiesController.Returned st
  | ActivitiesController.Threw => ActivitiesController.Threw
  end.

(** The detail view of the session in progress, with nothing assigned yet
    and the first sample activity selected. *)
Definition detail1 : SessionDetail.DetailScope :=
  {| SessionDetail.sessionActivities := [];
     SessionDetail.selectedActivityId := Some 1%positive;
     SessionDetail.selectedSession := Some session1;
     SessionDetail.availableActivities := [sample1] |}.


(** Number of right answers in a list of answers. *)
Definition count_right (answers : list bool) : nat :=
  length (List.filter (fun b => b) answers).

(** The state of a run over the shuffled words [W] once the answers have
    been given: the trials stop at [totalTrials], the word on show is the
    one at the position of the current trial, and only the answers to the
    trials that took place are counted. *)
Definition run_state (W : list TrialItem) (answers : list bool) : TrialState :=
  {| activityWords := W;
     currentWord := if length answers <? Nat.min (length W) 10
                    then W !! length answers else None;
     currentWordIndex := Nat.min (S (length answers)) (Nat.min (length W) 10);
     currentTrial := Nat.min (length answers) (Nat.min (length W) 10);
     totalTrials := Nat.min (length W) 10;
     trialsCorrect := count_right (firstn (Nat.min (length W) 10) answers) |}.

(** The answers to the completion requests of one pass of
    [checkSessionStatuses] have all arrived: each [.then] callback has run. *)
Definition completionsApplied (w : World) : World :=
  fold_left (fun w session =>
               SessionsController.onSessionStatusUpdated (session_key session) "completed" w)
            (List.filter SessionsController.shouldComplete (sessions (sess w))) w.

(** The task of the [$timeout] registered last along a trace. *)
Fixpoint last_deferred (tr : list Event) : option Task :=
  match tr with
  | [] => None
  | e :: rest =>
      match last_deferred rest with
      | Some t => Some t
      | None => match e with Deferred _ t => Some t | _ => None end
      end
  end.

(** The callback of the progress request, by the outcome of the request. *)
Definition onProgressSettled (saved : bool) (k : ActivitiesController.SaveContinuation)
    (w : World) : World :=
  if saved then ActivitiesController.onProgressSaved k w
  else ActivitiesController.onProgressFailed k w.

(** A whole practice round: the session view opens the activity, the
    Activities view consumes the request, the operator answers, the run is
    finished, the progress request settles, the timer registered last
    fires, and the watch of the session view sees the value of
    [returnToSessionId]. *)
Definition practiceRound (rnd : nat -> nat) (a : Activity) (session : Session)
    (record : option SessionActivity) (answers : list bool) (saved : bool) (now : Z)
    (w : World) : ActivitiesController.Outcome World :=
  let w1 := SessionsController.openActivityFromSession a session record w in
  let w2 := ActivitiesController.checkPendingActivity rnd w1 in
  let w3 := answer_all answers w2 in
  match ActivitiesController.finishActivity now w3 with
  | ActivitiesController.Returned (w4, Some k) =>
      let w5 := onProgressSettled saved k w4 in
      let w6 := match last_deferred (trace w5) with
                | Some t => run_task rnd t w5
                | None => w5
                end in
      ActivitiesController.Returned
        (SessionsController.watchReturnToSessionId (returnToSessionId (root w6)) w6)
  | ActivitiesController.Returned (w4, None) => ActivitiesController.Returned w4
  | ActivitiesController.Threw => ActivitiesController.Threw
  end.

(** * Properties *)

(** ** Trial engine *)

Section TrialEngineFacts.

Import TrialEngine.

Lemma swap_length l i j : length (swap l i j) = length l.
Proof.
  unfold swap. destruct (l !! i), (l !! j); trivial.
  now rewrite !length_insert.
Qed.

Lemma shuffle_from_length rnd i : forall l, length (shuffle_from rnd i l) = length l.
Proof.
  induction i as [|i IH]; intros l; simpl; trivial.
  rewrite IH. apply swap_length.
Qed.

Lemma shuffleWords_length rnd t :
  length (activityWords (shuffleWords rnd t)) = length (activityWords t).
Proof. apply shuffle_from_length. Qed.

Lemma nextWord_words t : activityWords (nextWord t) = activityWords t.
Proof. unfold nextWord. now destruct (_ && _). Qed.

Lemma nextWord_counters t :
  currentTrial (nextWord t) = currentTrial t
  /\ totalTrials (nextWord t) = totalTrials t
  /\ trialsCorrect (nextWord t) = trialsCorrect t.
Proof. unfold nextWord. now destruct (_ && _). Qed.

Lemma nextWord_index_bound t :
  currentWordIndex t <= length (activityWords t) ->
  currentWordIndex (nextWord t) <= length (activityWords (nextWord t)).
Proof.
  unfold nextWord. intros H.
  destruct (currentWordIndex t <? length (activityWords t)) eqn:E; simpl.
  - apply Nat.ltb_lt in E. destruct (currentTrial t <? totalTrials t); simpl; lia.
  - exact H.
Qed.

Lemma startActivity_length rnd t :
  length (activityWords (startActivity rnd t)) = length (activityWords t).
Proof.
  unfold startActivity. rewrite nextWord_words, shuffleWords_length. reflexivity.
Qed.

Lemma startActivity_total rnd t :
  totalTrials (startActivity rnd t) = Nat.min (length (activityWords t)) 10.
Proof.
  unfold startActivity.
  destruct (nextWord_counters (shuffleWords rnd
              (set_totalTrials (Nat.min (length (activityWords t)) 10) t))) as (_ & H & _).
  rewrite H. reflexivity.
Qed.

Lemma resetActivity_within_bounds rnd t : within_bounds (resetActivity rnd t).
Proof.
  unfold within_bounds, resetActivity. split.
  - unfold startActivity.
    match goal with |- context [nextWord ?x] => destruct (nextWord_counters x) as (-> & -> & _) end.
    simpl. lia.
  - unfold startActivity. apply nextWord_index_bound. simpl. lia.
Qed.

Lemma recordResponse_within_bounds b t :
  within_bounds t -> within_bounds (snd (recordResponse b t)).
Proof.
  unfold within_bounds, recordResponse. intros [Ht Hi].
  destruct (totalTrials t <=? currentTrial t) eqn:E; simpl; [now split|].
  apply Nat.leb_gt in E.
  destruct (S (currentTrial t) <? totalTrials t) eqn:E2; simpl.
  - split.
    + match goal with |- context [nextWord ?x] => destruct (nextWord_counters x) as (-> & -> & _) end.
      simpl. lia.
    + apply nextWord_index_bound. simpl. exact Hi.
  - split; [lia | exact Hi].
Qed.

Lemma recordResponses_within_bounds answers :
  forall t, within_bounds t -> within_bounds (recordResponses answers t).
Proof.
  induction answers as [|b rest IH]; intros t H; simpl; trivial.
  apply IH. now apply recordResponse_within_bounds.
Qed.

Lemma recordResponse_complete b t :
  totalTrials t <= currentTrial t -> recordResponse b t = (Js.Undefined, t).
Proof.
  intros H. unfold recordResponse.
  apply Nat.leb_le in H. now rewrite H.
Qed.

Lemma recordResponse_value b t : fst (recordResponse b t) = Js.Undefined.
Proof.
  unfold recordResponse.
  destruct (_ <=? _); trivial. now destruct (_ <? _).
Qed.

End TrialEngineFacts.

Section TrialEngineClaims.

Import TrialEngine.

(** C4. Starting a trial run sets [totalTrials] to the smaller of the number
    of items and 10, whatever the shuffle draws, and the shuffle keeps the
    number of items; opening an activity for a client does so on the word
    list of that activity. On an empty word list the run starts in the
    state with no current word and [totalTrials = 0], in which every further
    answer is ignored. *)
Theorem C4_startActivity_totalTrials :
  (forall rnd t,
      totalTrials (startActivity rnd t) = Nat.min (length (activityWords t)) 10
      /\ length (activityWords (startActivity rnd t)) = length (activityWords t))
  /\ (forall rnd a c s r w,
        totalTrials (trial (acts (ActivitiesController.openFor rnd a c s r w)))
        = Nat.min (length (ActivitiesController.getActivityWords a)) 10)
  /\ (forall rnd cw ci ct tt tc,
        let t0 := resetActivity rnd (mkTrial [] cw ci ct tt tc) in
        t0 = mkTrial [] None 0 0 0 0
        /\ forall b, recordResponse b t0 = (Js.Undefined, t0)).
Proof.
  split; [|split].
  - intros rnd t. split; [apply startActivity_total | apply startActivity_length].
  - intros rnd a c s r w. unfold ActivitiesController.openFor. simpl.
    rewrite startActivity_total. reflexivity.
  - intros rnd cw ci ct tt tc. simpl. split; [reflexivity|].
    intros b. reflexivity.
Qed.

(** C5. From a started run, after any sequence of answers, [currentTrial]
    is at most [totalTrials] and [currentWordIndex] is at most the number of
    words; and once [currentTrial] has reached [totalTrials] a further
    answer changes neither [currentTrial] nor [trialsCorrect] (it changes
    nothing at all). *)
Theorem C5_recordResponse_bounds rnd t0 answers :
  let t := recordResponses answers (resetActivity rnd t0) in
  currentTrial t <= totalTrials t
  /\ currentWordIndex t <= length (activityWords t)
  /\ forall b, complete t ->
       currentTrial (snd (recordResponse b t)) = currentTrial t
       /\ trialsCorrect (snd (recordResponse b t)) = trialsCorrect t
       /\ snd (recordResponse b t) = t.
Proof.
  intros t.
  destruct (recordResponses_within_bounds answers (resetActivity rnd t0)
              (resetActivity_within_bounds rnd t0)) as [H1 H2].
  split; [exact H1 | split; [exact H2 |]].
  intros b Hc. rewrite (recordResponse_complete b t Hc). simpl. auto.
Qed.

(** C9, as the code has it. An answer on a complete run is not an error: it
    changes nothing. [recordResponse] evaluates to [undefined] there, as it
    does on every other call, so the value tells the caller nothing; that
    the run is complete shows in the scope only. *)
Theorem C9_recordResponse_silent_noop b t :
  complete t ->
  recordResponse b t = (Js.Undefined, t)
  /\ forall b' t', fst (recordResponse b' t') = Js.Undefined.
Proof.
  intros H. split.
  - now apply recordResponse_complete.
  - intros. apply recordResponse_value.
Qed.

End TrialEngineClaims.

Section TrialEngineScenarios.

Import TrialEngine.

(** The run of ten answers: the counters sit at their bounds and an
    eleventh answer changes nothing. *)
Example finished_run_counters :
  currentTrial finished_run = 10
  /\ totalTrials finished_run = 10
  /\ trialsCorrect finished_run = 7
  /\ currentWordIndex finished_run = 10
  /\ snd (recordResponse true finished_run) = finished_run.
Proof. vm_compute. repeat split. Qed.

Lemma C9_witness :
  complete finished_run
  /\ recordResponse true finished_run = (Js.Undefined, finished_run)
  /\ forall b' t', fst (recordResponse b' t') = Js.Undefined.
Proof.
  assert (H : complete finished_run) by (vm_compute; lia).
  split; [exact H | exact (C9_recordResponse_silent_noop true finished_run H)].
Defined.

(** C9, as stated, fails: on the complete run the call evaluates to
    [undefined], which is also what it evaluates to on a run that has just
    started, so no status reaches the caller. *)
Lemma C9_counterexample_no_status :
  complete finished_run
  /\ fst (recordResponse true finished_run) = Js.Undefined
  /\ ~ complete fresh_run
  /\ fst (recordResponse true fresh_run) = Js.Undefined.
Proof.
  repeat split; try reflexivity.
  - vm_compute. lia.
  - vm_compute. lia.
Qed.

End TrialEngineScenarios.

(** ** Handoff from the session view to the Activities view *)

Section HandoffFacts.

Import ActivitiesController.

Lemma starts_app tr1 tr2 : starts (tr1 ++ tr2) = starts tr1 + starts tr2.
Proof. unfold starts. now rewrite List.filter_app, length_app. Qed.

Lemma find_first_some_nonempty {A} (p : A -> bool) l x :
  find_first p l = Some x -> 0 < length l.
Proof. destruct l; simpl; [discriminate | lia]. Qed.

Lemma openFor_trace rnd a c s r w :
  trace (openFor rnd a c s r w)
  = trace w ++ [TrialRunStarted (Some a) (Some c); PendingCleared;
                Toast success (ActivityStartedFor (first_name c) (last_name c))].
Proof. unfold openFor. simpl. now rewrite <- !app_assoc. Qed.

Lemma openFor_slot rnd a c s r w :
  pendingActivity (root (openFor rnd a c s r w)) = None.
Proof. reflexivity. Qed.

Lemma checkPendingActivity_empty_slot rnd w :
  pendingActivity (root w) = None -> checkPendingActivity rnd w = w.
Proof. intros H. unfold checkPendingActivity. now rewrite H. Qed.

Lemma checkPendingActivity_resolved rnd w p a c :
  pendingActivity (root w) = Some p ->
  find_activity (activity_key (pending_activity p)) (activities (acts w)) = Some a ->
  pending_client p = Some c ->
  checkPendingActivity rnd w
  = openFor rnd a c (pending_session p) (pending_sessionActivityRecord p) w.
Proof.
  intros Hp Ha Hc. unfold checkPendingActivity. rewrite Hp, Ha, Hc.
  apply find_first_some_nonempty in Ha. apply Nat.ltb_lt in Ha. now rewrite Ha.
Qed.

Lemma checkPendingActivity_unresolved rnd w p :
  pendingActivity (root w) = Some p ->
  ~ resolvable p (acts w) ->
  checkPendingActivity rnd w = w.
Proof.
  intros Hp Hn. unfold checkPendingActivity. rewrite Hp.
  destruct (0 <? _); trivial.
  destruct (find_activity _ _) eqn:Ha; trivial.
  destruct (pending_client p) eqn:Hc; trivial.
  exfalso. apply Hn. unfold resolvable. rewrite Ha, Hc. split; eexists; reflexivity.
Qed.

Lemma fire_empty_slot rnd m w :
  pendingActivity (root w) = None -> fire rnd m w = w.
Proof.
  intros H. destruct m; simpl.
  - now apply checkPendingActivity_empty_slot.
  - now apply checkPendingActivity_empty_slot.
  - now rewrite H.
Qed.

Lemma fire_all_empty_slot rnd ms :
  forall w, pendingActivity (root w) = None -> fire_all rnd ms w = w.
Proof.
  induction ms as [|m ms IH]; intros w H; simpl; trivial.
  rewrite (fire_empty_slot rnd m w H). now apply IH.
Qed.

Lemma fire_empty_catalog rnd m w :
  activities (acts w) = [] -> fire rnd m w = w.
Proof.
  intros H.
  assert (Hc : checkPendingActivity rnd w = w).
  { unfold checkPendingActivity. rewrite H. simpl. now destruct (pendingActivity _). }
  destruct m; simpl; trivial.
  unfold watchPendingActivity. rewrite H. simpl. now destruct (pendingActivity _).
Qed.

Lemma fire_all_empty_catalog rnd ms :
  forall w, activities (acts w) = [] -> fire_all rnd ms w = w.
Proof.
  induction ms as [|m ms IH]; intros w H; simpl; trivial.
  rewrite (fire_empty_catalog rnd m w H). now apply IH.
Qed.

Lemma fire_resolved rnd m w p a c :
  pendingActivity (root w) = Some p ->
  find_activity (activity_key (pending_activity p)) (activities (acts w)) = Some a ->
  pending_client p = Some c ->
  fire rnd m w = openFor rnd a c (pending_session p) (pending_sessionActivityRecord p) w.
Proof.
  intros Hp Ha Hc.
  pose proof (checkPendingActivity_resolved rnd w p a c Hp Ha Hc) as H.
  destruct m; simpl; trivial.
  unfold watchPendingActivity. rewrite Hp.
  apply find_first_some_nonempty in Ha. apply Nat.ltb_lt in Ha. now rewrite Ha.
Qed.

(** The controller body schedules the four delayed checks, and the answer
    of the catalog request schedules one more, 100 ms later. *)
Lemma initialize_schedules w :
  trace (initialize w)
  = trace w ++ [Api getActivities; Api getClients;
                Deferred 300 PendingCheck; Deferred 600 PendingCheck;
                Deferred 1000 PendingCheck; Deferred 1500 PendingCheck].
Proof. unfold initialize, loadActivities. simpl. now rewrite <- !app_assoc. Qed.

Lemma onActivitiesLoaded_schedules data w :
  trace (onActivitiesLoaded data w) = trace w ++ [Deferred 100 PendingCheck]
  /\ root (onActivitiesLoaded data w) = root w.
Proof. split; reflexivity. Qed.

End HandoffFacts.

Section HandoffClaims.

Import ActivitiesController.

(** C1, as the code has it. A request is in the slot while the catalog of
    the Activities view is still empty; the mechanisms that fire before the
    catalog arrives change nothing. Once the catalog has loaded and holds
    the activity of the request (which carries a client), the first
    mechanism that fires, whichever it is, starts the trial run and, in the
    same call, right after the start, clears the slot; every mechanism that
    fires later finds the slot empty and does nothing. One trial run is
    started in all. *)
Theorem C1_handoff_consumed_once rnd w0 p c a data before m after :
  activities (acts w0) = [] ->
  pendingActivity (root w0) = Some p ->
  pending_client p = Some c ->
  let w1 := onActivitiesLoaded data (fire_all rnd before w0) in
  find_activity (activity_key (pending_activity p)) (activities (acts w1)) = Some a ->
  let w2 := fire rnd m w1 in
  fire_all rnd before w0 = w0
  /\ trace w2 = trace w1 ++ [TrialRunStarted (Some a) (Some c); PendingCleared;
                             Toast success (ActivityStartedFor (first_name c) (last_name c))]
  /\ pendingActivity (root w2) = None
  /\ (forall m', fire rnd m' w2 = w2)
  /\ fire_all rnd (m :: after) w1 = w2
  /\ starts (trace (fire_all rnd (m :: after) w1)) = S (starts (trace w0)).
Proof.
  intros Hcat Hp Hc w1 Ha w2.
  assert (Hb : fire_all rnd before w0 = w0) by now apply fire_all_empty_catalog.
  assert (Hp1 : pendingActivity (root w1) = Some p).
  { subst w1. rewrite Hb. exact Hp. }
  assert (H2 : w2 = openFor rnd a c (pending_session p) (pending_sessionActivityRecord p) w1).
  { subst w2. now apply fire_resolved. }
  assert (Hs : pendingActivity (root w2) = None) by now rewrite H2.
  assert (Hall : fire_all rnd (m :: after) w1 = w2).
  { simpl. fold w2. now apply fire_all_empty_slot. }
  split; [exact Hb|]. split; [rewrite H2; apply openFor_trace|].
  split; [exact Hs|]. split; [intros m'; now apply fire_empty_slot|].
  split; [exact Hall|].
  rewrite Hall, H2, openFor_trace, starts_app. subst w1. rewrite Hb.
  unfold onActivitiesLoaded. simpl. rewrite starts_app.
  unfold starts. simpl. lia.
Qed.

Lemma C1_witness :
  activities (acts published) = []
  /\ pendingActivity (root published) = Some request1
  /\ starts (trace (fire_all no_shuffle
                      (PostLoadCheck :: [WatchFires; Retry 600; Retry 1000; Retry 1500])
                      (onActivitiesLoaded [] (fire_all no_shuffle [Retry 300; WatchFires] published))))
     = S (starts (trace published)).
Proof.
  split; [reflexivity | split; [reflexivity |]].
  exact (proj2 (proj2 (proj2 (proj2 (proj2
    (C1_handoff_consumed_once no_shuffle published request1 alice sample1 []
       [Retry 300; WatchFires] PostLoadCheck [WatchFires; Retry 600; Retry 1000; Retry 1500]
       eq_refl eq_refl eq_refl eq_refl)))))).
Defined.

(** C1, as stated, fails on two counts. The consumer starts the trial run
    first and clears the slot after it: in the trace of the consuming call
    the start is the event before the clearing. And a request whose activity
    the loaded catalog does not hold is consumed by none of the six
    mechanisms: no run starts and the request stays in the slot. *)
Lemma C1_counterexample_start_precedes_clear :
  first_index is_start (trace (fire no_shuffle PostLoadCheck loaded)) = Some 3
  /\ first_index is_clear (trace (fire no_shuffle PostLoadCheck loaded)) = Some 4
  /\ starts (trace (fire_all no_shuffle all_mechanisms loaded99)) = 0
  /\ is_Some (pendingActivity (root (fire_all no_shuffle all_mechanisms loaded99))).
Proof.
  split; [vm_compute; reflexivity|].
  split; [vm_compute; reflexivity|].
  split; [vm_compute; reflexivity|].
  vm_compute. eexists. reflexivity.
Qed.

(** C8. A call of [checkPendingActivity] consumes the request, that is
    starts the run and leaves the slot empty, exactly when the slot holds a
    request, the catalog is loaded and holds the activity the request refers
    to, and the request carries a client. A call that does not consume
    changes nothing, the slot included; so when the catalog that lacked the
    activity is replaced by one that holds it, the next call consumes the
    request. [openActivityForClient] likewise changes nothing when it cannot
    find the activity or has no client. *)
Theorem C8_consumption_iff_ready rnd w :
  (consumes rnd w <->
   exists p, pendingActivity (root w) = Some p
             /\ 0 < length (activities (acts w))
             /\ resolvable p (acts w))
  /\ (~ consumes rnd w -> checkPendingActivity rnd w = w)
  /\ (forall p c a catalog,
        pendingActivity (root w) = Some p ->
        pending_client p = Some c ->
        ~ resolvable p (acts w) ->
        find_activity (activity_key (pending_activity p)) catalog = Some a ->
        consumes rnd (with_acts (set_activities catalog) (checkPendingActivity rnd w)))
  /\ (forall id client s r,
        find_activity id (activities (acts w)) = None \/ client = None ->
        openActivityForClient rnd id client s r w = w).
Proof.
  assert (Hyes : forall w' p, pendingActivity (root w') = Some p ->
                              resolvable p (acts w') -> consumes rnd w').
  { intros w' p Hp [[a Ha] [c Hc]]. unfold consumes.
    rewrite (checkPendingActivity_resolved rnd w' p a c Hp Ha Hc).
    rewrite Hp, openFor_trace, starts_app. split; [eexists; reflexivity|].
    split; [reflexivity|]. unfold starts. simpl. lia. }
  assert (Hno : ~ consumes rnd w -> checkPendingActivity rnd w = w).
  { intros Hn. destruct (pendingActivity (root w)) as [p|] eqn:Hp.
    - apply (checkPendingActivity_unresolved rnd w p Hp).
      intros Hr. apply Hn. now apply (Hyes w p).
    - now apply checkPendingActivity_empty_slot. }
  split; [split|split; [exact Hno|split]].
  - intros (Hs & Hnone & _). destruct Hs as [p Hp]. exists p. split; [exact Hp|].
    destruct (find_activity (activity_key (pending_activity p)) (activities (acts w))) as [a|] eqn:Ha.
    + destruct (pending_client p) as [c|] eqn:Hc.
      * split; [now apply find_first_some_nonempty in Ha|].
        unfold resolvable. rewrite Ha, Hc. split; eexists; reflexivity.
      * exfalso. rewrite (checkPendingActivity_unresolved rnd w p Hp) in Hnone.
        -- congruence.
        -- intros [_ [c Hc']]. congruence.
    + exfalso. rewrite (checkPendingActivity_unresolved rnd w p Hp) in Hnone.
      * congruence.
      * intros [[a Ha'] _]. congruence.
  - intros (p & Hp & _ & Hr). now apply (Hyes w p).
  - intros p c a catalog Hp Hc Hn Ha.
    rewrite (checkPendingActivity_unresolved rnd w p Hp Hn).
    apply (Hyes _ p); [exact Hp|].
    unfold resolvable. simpl. rewrite Ha, Hc. split; eexists; reflexivity.
  - intros id client s r H. unfold openActivityForClient.
    destruct H as [H|H]; rewrite H; [reflexivity|].
    now destruct (find_activity _ _).
Qed.

(** C8 on the loaded catalog: the check that follows the load consumes the
    request; before the load, with the same request in the slot, it does
    not, and changes nothing. *)
Lemma C8_witness :
  consumes no_shuffle loaded
  /\ checkPendingActivity no_shuffle published = published.
Proof.
  split.
  - apply (proj2 (proj1 (C8_consumption_iff_ready no_shuffle loaded))).
    exists request1. split; [reflexivity|]. split; [vm_compute; lia|].
    split; eexists; reflexivity.
  - apply (proj1 (proj2 (C8_consumption_iff_ready no_shuffle published))).
    intros Hc.
    apply (proj1 (proj1 (C8_consumption_iff_ready no_shuffle published))) in Hc.
    destruct Hc as (p & _ & Hlen & _). vm_compute in Hlen. lia.
Defined.

End HandoffClaims.

(** ** Session lifecycle *)

Section SessionFacts.

Import SessionsController.

Lemma notAttempted_false_iff sa : notAttempted sa = false <-> attempted sa.
Proof.
  unfold notAttempted, attempted, Js.truthy_count, Js.is_zero_count.
  destruct (trials_attempted sa) as [n|]; simpl.
  - destruct (N.eqb_spec n 0) as [->|Hn]; simpl; split; try discriminate.
    + intros (m & Hm & Hlt). inversion Hm; subst. lia.
    + intros _. exists n. split; [reflexivity | lia].
    + reflexivity.
  - split; [discriminate|]. intros (m & Hm & _). discriminate.
Qed.

Lemma allCompleted_iff l : allCompleted l = true <-> Forall attempted l.
Proof.
  induction l as [|sa l IH]; simpl.
  - split; [constructor | reflexivity].
  - destruct (notAttempted sa) eqn:E.
    + split; [discriminate|]. intros H. inversion H as [|? ? Ha _]; subst.
      apply notAttempted_false_iff in Ha. congruence.
    + rewrite IH. split.
      * intros H. constructor; [now apply notAttempted_false_iff | exact H].
      * intros H. now inversion H.
Qed.

Lemma shouldComplete_iff session :
  shouldComplete session = true <-> allAttemptedInProgress session.
Proof.
  unfold shouldComplete, allAttemptedInProgress.
  destruct (String.eqb_spec (status session) "in_progress") as [Hs|Hs].
  - destruct (assignedActivities session) as [l|].
    + destruct l as [|sa l].
      * simpl. split; [discriminate|]. intros (_ & l' & Hl & Hne & _).
        inversion Hl; subst. congruence.
      * change (0 <? length (sa :: l)) with true. cbv iota. rewrite allCompleted_iff.
        split.
        -- intros H. split; [exact Hs|]. exists (sa :: l). now repeat split.
        -- intros (_ & l' & Hl & _ & H). now inversion Hl; subst.
    + split; [discriminate|]. intros (_ & l' & Hl & _). discriminate.
  - split; [discriminate|]. intros (H & _). contradiction.
Qed.

Lemma checkSessionStatuses_trace_from l :
  forall w,
    trace (fold_left (fun w session =>
                        if shouldComplete session
                        then updateSessionStatus session "completed" w else w) l w)
    = trace w ++ map completionRequest (List.filter shouldComplete l).
Proof.
  induction l as [|s l IH]; intros w; simpl.
  - now rewrite app_nil_r.
  - rewrite IH. destruct (shouldComplete s); simpl; trivial.
    now rewrite <- app_assoc.
Qed.

End SessionFacts.

Section SessionClaims.

Import SessionsController.

(** C2. [checkSessionAutoComplete] asks for the status [completed] exactly
    when the session's status is [in_progress], its assignment list is not
    empty and every assignment has [trials_attempted] above 0; otherwise it
    does nothing. In particular it does nothing on an empty list and as soon
    as one assignment has [trials_attempted] 0 or missing. The periodic
    [checkSessionStatuses] asks for it for exactly the sessions in scope
    that meet the same condition. *)
Theorem C2_auto_completion_iff session w :
  (allAttemptedInProgress session <->
   trace (checkSessionAutoComplete session w) = trace w ++ [completionRequest session])
  /\ (~ allAttemptedInProgress session -> checkSessionAutoComplete session w = w)
  /\ (assignedActivities session = Some [] -> checkSessionAutoComplete session w = w)
  /\ (forall l sa, assignedActivities session = Some l -> In sa l ->
         trials_attempted sa = Some 0%N \/ trials_attempted sa = None ->
         checkSessionAutoComplete session w = w)
  /\ (forall s, shouldComplete s = true <-> allAttemptedInProgress s)
  /\ trace (checkSessionStatuses w)
     = trace w ++ map completionRequest (List.filter shouldComplete (sessions (sess w))).
Proof.
  assert (Hno : ~ allAttemptedInProgress session -> checkSessionAutoComplete session w = w).
  { intros Hn. unfold checkSessionAutoComplete.
    destruct (shouldComplete session) eqn:E; trivial.
    apply shouldComplete_iff in E. contradiction. }
  split; [split|split; [exact Hno|split; [|split; [|split]]]].
  - intros H. apply shouldComplete_iff in H. unfold checkSessionAutoComplete.
    now rewrite H.
  - intros H. apply shouldComplete_iff. unfold checkSessionAutoComplete in H.
    destruct (shouldComplete session); trivial.
    rewrite <- (app_nil_r (trace w)) in H at 1.
    apply app_inv_head in H. discriminate.
  - intros Hl. apply Hno. intros (_ & l & Hl' & Hne & _). congruence.
  - intros l sa Hl Hin Hz. apply Hno. intros (_ & l' & Hl' & _ & Hall).
    assert (l' = l) by congruence. subst l'.
    rewrite List.Forall_forall in Hall. destruct (Hall sa Hin) as (n & Hn & Hlt).
    destruct Hz as [Hz|Hz]; rewrite Hz in Hn; [|discriminate].
    inversion Hn; subst. lia.
  - intros s. apply shouldComplete_iff.
  - apply checkSessionStatuses_trace_from.
Qed.

(** C2 on the examples of the specification: two attempted assignments ask
    for completion; one attempted and one not, or none at all, do not. *)
Lemma C2_witness :
  allAttemptedInProgress session_two_done
  /\ trace (checkSessionAutoComplete session_two_done world0)
     = [completionRequest session_two_done]
  /\ checkSessionAutoComplete session_one_pending world0 = world0
  /\ checkSessionAutoComplete (session_at 0 "in_progress" []) world0 = world0.
Proof.
  assert (H : allAttemptedInProgress session_two_done).
  { split; [reflexivity|]. eexists. split; [reflexivity|]. split; [discriminate|].
    repeat constructor; (eexists; split; [reflexivity | reflexivity]). }
  split; [exact H|]. split; [|split].
  - exact (proj1 (proj1 (C2_auto_completion_iff session_two_done world0)) H).
  - apply (proj1 (proj2 (proj2 (proj2 (C2_auto_completion_iff session_one_pending world0))))
             [assignment_done; assignment1] assignment1 eq_refl).
    + right. left. reflexivity.
    + left. reflexivity.
  - exact (proj1 (proj2 (proj2 (C2_auto_completion_iff (session_at 0 "in_progress" []) world0)))
             eq_refl).
Defined.

Lemma saveSession_window_gate now w editing :
  editingSession (sess w) = Some editing ->
  form_status (sessionForm (sess w)) = "in_progress" ->
  status editing <> "in_progress" ->
  ((now < windowStart (sess w) editing)%Z ->
   saveSession now w
   = emit (Toast error (CannotStartSession (windowStart (sess w) editing))) w)
  /\ (forall sessionEndTime,
        windowEnd (sess w) editing = Some sessionEndTime ->
        ((sessionEndTime < now)%Z ->
         saveSession now w
         = emit (Toast error (CannotStartSession (windowStart (sess w) editing))) w)
        /\ ((windowStart (sess w) editing <= now <= sessionEndTime)%Z ->
            saveSession now w
            = emit (Api (updateSession (session_key editing) (updateData (sess w)))) w
            /\ upd_status (updateData (sess w)) = Some "in_progress"))
  /\ (windowEnd (sess w) editing = None ->
      (windowStart (sess w) editing <= now)%Z ->
      saveSession now w
      = emit (Api (updateSession (session_key editing) (updateData (sess w)))) w
      /\ upd_status (updateData (sess w)) = Some "in_progress").
Proof.
  intros He Hf Hs. unfold saveSession. rewrite He, Hf.
  apply String.eqb_neq in Hs. rewrite Hs.
  cbn [String.eqb Ascii.eqb Bool.eqb negb andb].
  assert (Hst : upd_status (updateData (sess w)) = Some "in_progress").
  { unfold updateData. cbn [upd_status]. now rewrite Hf. }
  unfold outsideWindow. split; [|split].
  - intros H. apply Z.ltb_lt in H. now rewrite H.
  - intros e He'. rewrite He'. split.
    + intros H. apply Z.ltb_lt in H. rewrite H. now rewrite orb_true_r.
    + intros [H1 H2]. apply Z.ltb_ge in H1, H2. rewrite H1, H2. now split.
  - intros Hn H1. rewrite Hn. apply Z.ltb_ge in H1. rewrite H1. now split.
Qed.

Lemma editSession_window session w :
  (session_date session mod 60000 = 0)%Z ->
  let s := sess (pickStatus "in_progress" (editSession session w)) in
  windowStart s session = session_date session
  /\ windowEnd s session
     = Some (session_date session + duration_minutes session * 60 * 1000)%Z.
Proof.
  intros H. unfold windowEnd, windowStart. simpl. unfold floorToMinute.
  assert (E : (session_date session / 60000 * 60000 = session_date session)%Z).
  { pose proof (Z.div_mod (session_date session) 60000). lia. }
  now rewrite E.
Qed.

(** C3, at the failing input. For the session of 30 minutes scheduled at
    noon, the edit form refuses the status [in_progress] at 12:40 with the
    error toast and sends nothing, and sends the update at 12:10. The start
    button and the direct status change look at no clock: they send their
    request, for the status [in_progress], whatever the time, and show no
    error. *)
Theorem C3_start_paths_skip_window_check :
  saveSession forty_past editing_noon
  = emit (Toast error (CannotStartSession noon)) editing_noon
  /\ saveSession ten_past editing_noon
     = emit (Api (updateSession 3 {| upd_duration_minutes := Some 30%Z;
                                     upd_session_date := Some noon;
                                     upd_status := Some "in_progress" |})) editing_noon
  /\ trace (startSession session_noon world0) = [Api (startSessionRequest 3)]
  /\ trace (changeSessionStatus session_noon "in_progress" world0)
     = [Api (updateSession 3 (statusOnly "in_progress"))].
Proof. repeat split; reflexivity. Qed.

Lemma openActivityFromSession_refusals a session r w :
  isInProgress session = false \/ alreadyCompleted r = true
  \/ clientOf session (sess w) = None ->
  root (openActivityFromSession a session r w) = root w
  /\ exists k m, openActivityFromSession a session r w = emit (Toast k m) w.
Proof.
  unfold openActivityFromSession. intros H.
  destruct (isInProgress session) eqn:E1; simpl.
  - destruct (alreadyCompleted r) eqn:E2.
    + split; [reflexivity | eauto].
    + destruct (clientOf session (sess w)) eqn:E3.
      * destruct H as [H|[H|H]]; discriminate.
      * split; [reflexivity | eauto].
  - split; [reflexivity | eauto].
Qed.

Lemma openActivityFromSession_publishes a session r w client :
  isInProgress session = true ->
  alreadyCompleted r = false ->
  clientOf session (sess w) = Some client ->
  exists record,
    pendingActivity (root (openActivityFromSession a session r w))
    = Some {| pending_activity := a; pending_client := Some client;
              pending_session := Some session;
              pending_sessionActivityRecord := record |}
    /\ (record = r \/ r = None /\ record = find_record a session).
Proof.
  intros H1 H2 H3. unfold openActivityFromSession. rewrite H1, H2, H3. simpl.
  destruct r as [r|]; eexists; (split; [reflexivity|]); auto.
Qed.

(** C10, at the failing input. With the record of the assignment passed,
    the view refuses to open an activity that has five trials on record.
    Without it, the view looks the record up in the session after the check
    for attempted trials has been made, and publishes a request for that
    same assignment. *)
Theorem C10_lookup_bypasses_attempted_check :
  openActivityFromSession activity1 session_done (Some assignment_done) world0
  = emit (Toast info (AlreadyCompleted 80)) world0
  /\ pendingActivity (root (openActivityFromSession activity1 session_done None world0))
     = Some {| pending_activity := activity1; pending_client := Some alice;
               pending_session := Some session_done;
               pending_sessionActivityRecord := Some assignment_done |}
  /\ trials_attempted assignment_done = Some 5%N.
Proof. repeat split; reflexivity. Qed.

End SessionClaims.

(** ** Finishing a run and returning to the session *)

Section FinishFacts.

Import ActivitiesController.

Lemma of_nat_nonzero n : 0 < n -> Js.is_zero (Js.of_nat n) = false.
Proof.
  intros H. unfold Js.is_zero, Js.of_nat.
  destruct (Qeq_bool (inject_Z (Z.of_nat n)) 0) eqn:E; trivial.
  apply Qeq_bool_eq in E. unfold Qeq in E. simpl in E. lia.
Qed.

Lemma accuracy_finite k n :
  0 < n ->
  Js.mul (Js.div (Js.of_nat k) (Js.of_nat n)) 100
  = Js.Finite (Js.of_nat k / Js.of_nat n * 100).
Proof. intros H. unfold Js.div. now rewrite (of_nat_nonzero n H). Qed.

Lemma all_right_is_100 n : 0 < n -> (Js.of_nat n / Js.of_nat n * 100 == 100)%Q.
Proof.
  intros H. unfold Qdiv. rewrite Qmult_inv_r.
  - apply Qmult_1_l.
  - unfold Js.of_nat, Qeq. simpl. lia.
Qed.

Lemma finishActivity_saves now w c a :
  activityClient (acts w) = Some c ->
  selectedActivity (acts w) = Some a ->
  0 < currentTrial (trial (acts w)) ->
  let n := currentTrial (trial (acts w)) in
  let k := trialsCorrect (trial (acts w)) in
  finishActivity now w
  = Returned
      (emit (Api (createProgressRecord
                    {| pd_client_id := client_key c;
                       pd_record_date := (now / 86400000)%Z;
                       pd_category := Js.toLowerCase (category a);
                       pd_accuracy_percentage := Js.Finite (Js.of_nat k / Js.of_nat n * 100);
                       pd_trials_total := n;
                       pd_notes := ActivityNotes (activity_name a) n k |})) w,
       Some {| k_accuracy := Js.Finite (Js.of_nat k / Js.of_nat n * 100);
               k_sourceSession := sourceSession (acts w);
               k_sourceSessionActivityRecord := sourceSessionActivityRecord (acts w) |}).
Proof.
  intros Hc Ha Hn n k. unfold finishActivity. rewrite Hc, Ha.
  destruct (Nat.eqb_spec (currentTrial (trial (acts w))) 0) as [E|_]; [lia|].
  now rewrite (accuracy_finite _ _ Hn).
Qed.

Lemma finishActivity_no_trial now w :
  currentTrial (trial (acts w)) = 0 ->
  finishActivity now w = Returned (closeActivitySession w, None).
Proof.
  intros H. unfold finishActivity. rewrite H. simpl.
  now destruct (activityClient (acts w)).
Qed.

Lemma finishActivity_accuracy_finite now w w1 k :
  finishActivity now w = Returned (w1, Some k) -> exists q, k_accuracy k = Js.Finite q.
Proof.
  unfold finishActivity.
  destruct (activityClient (acts w)) as [c|]; [|discriminate].
  destruct (Nat.eqb_spec (currentTrial (trial (acts w))) 0) as [E|E]; [discriminate|].
  destruct (selectedActivity (acts w)) as [a|]; [|discriminate].
  intros H. inversion H; subst. simpl.
  rewrite accuracy_finite by lia. eauto.
Qed.

End FinishFacts.

Section FinishClaims.

Import ActivitiesController.

(** C6. When a client is selected and at least one trial was answered,
    [finishActivity] sends a progress record whose accuracy is
    [trialsCorrect / currentTrial * 100], a finite number, which is 100 when
    every answer was right, and whose number of trials is [currentTrial];
    its notes carry both counts. When the run came from a session, the
    update of the assignment sent once the record is saved carries
    [trials_attempted = currentTrial], [trials_correct = trialsCorrect] and
    the accuracy. When no trial was answered the call closes the view and
    sends nothing: no accuracy is computed, so nothing is divided by zero;
    every accuracy that is reported is finite. *)
Theorem C6_finishActivity_accuracy :
  (forall now w c a,
      activityClient (acts w) = Some c ->
      selectedActivity (acts w) = Some a ->
      0 < currentTrial (trial (acts w)) ->
      let n := currentTrial (trial (acts w)) in
      let k := trialsCorrect (trial (acts w)) in
      exists q w1 cont,
        (q == Js.of_nat k / Js.of_nat n * 100)%Q
        /\ (k = n -> (q == 100)%Q)
        /\ finishActivity now w = Returned (w1, Some cont)
        /\ k_accuracy cont = Js.Finite q
        /\ trace w1
           = trace w ++ [Api (createProgressRecord
                               {| pd_client_id := client_key c;
                                  pd_record_date := (now / 86400000)%Z;
                                  pd_category := Js.toLowerCase (category a);
                                  pd_accuracy_percentage := Js.Finite q;
                                  pd_trials_total := n;
                                  pd_notes := ActivityNotes (activity_name a) n k |})]
        /\ (forall s r,
              sourceSession (acts w) = Some s ->
              sourceSessionActivityRecord (acts w) = Some r ->
              trace (onProgressSaved cont w1)
              = trace w1
                ++ [Api (updateSessionActivity (session_key s) (sa_key r)
                           {| upd_trials_attempted := n; upd_trials_correct := k;
                              upd_notes := CompletedNotes (Js.Finite q) |});
                    Toast success (ActivityCompleted (Js.Finite q));
                    Deferred 500 (ReturnToSession (session_key s))]))
  /\ (forall now w,
        currentTrial (trial (acts w)) = 0 ->
        finishActivity now w = Returned (closeActivitySession w, None))
  /\ (forall now w w1 cont,
        finishActivity now w = Returned (w1, Some cont) ->
        exists q, k_accuracy cont = Js.Finite q).
Proof.
  split; [|split].
  - intros now w c a Hc Ha Hn n k.
    eexists _, _, _. split; [reflexivity|].
    split; [intros ->; now apply all_right_is_100|].
    split; [exact (finishActivity_saves now w c a Hc Ha Hn)|].
    split; [reflexivity|]. split; [reflexivity|].
    intros s r Hs Hr. unfold onProgressSaved, scheduleReturn. simpl.
    rewrite Hs, Hr. simpl. now rewrite <- !app_assoc.
  - apply finishActivity_no_trial.
  - apply finishActivity_accuracy_finite.
Qed.

(** C6 on the run of ten trials with seven right answers: the record sent
    has 10 trials and an accuracy equal to 70. *)
Lemma C6_witness :
  0 < currentTrial (trial (acts answered))
  /\ exists q w1 cont,
       (q == 70)%Q
       /\ finishActivity noon answered = Returned (w1, Some cont)
       /\ k_accuracy cont = Js.Finite q
       /\ currentTrial (trial (acts answered)) = 10
       /\ trialsCorrect (trial (acts answered)) = 7.
Proof.
  assert (Hn : 0 < currentTrial (trial (acts answered))) by (vm_compute; lia).
  split; [exact Hn|].
  destruct (proj1 C6_finishActivity_accuracy noon answered alice sample1
              eq_refl eq_refl Hn) as (q & w1 & cont & Hq & _ & Hf & Hk & _).
  exists q, w1, cont. split.
  - rewrite Hq. vm_compute. reflexivity.
  - repeat split; trivial.
Defined.

Lemma finish_returns_to_session rnd now w s c a :
  sourceSession (acts w) = Some s ->
  activityClient (acts w) = Some c ->
  selectedActivity (acts w) = Some a ->
  0 < currentTrial (trial (acts w)) ->
  exists w1 cont q,
    finishActivity now w = Returned (w1, Some cont)
    /\ k_accuracy cont = Js.Finite q
    /\ (q == Js.of_nat (trialsCorrect (trial (acts w)))
             / Js.of_nat (currentTrial (trial (acts w))) * 100)%Q
    /\ (exists upd,
          trace (onProgressSaved cont w1)
          = trace w1 ++ upd ++ [Toast success (ActivityCompleted (Js.Finite q));
                                Deferred 500 (ReturnToSession (session_key s))]
          /\ length upd <= 1)
    /\ trace (onProgressFailed cont w1)
       = trace w1 ++ [Toast info (ActivityCompletedNotSaved (Js.Finite q));
                      Deferred 500 (ReturnToSession (session_key s))]
    /\ forall w2,
         w2 = onProgressSaved cont w1 \/ w2 = onProgressFailed cont w1 ->
         let w3 := run_task rnd (ReturnToSession (session_key s)) w2 in
         let w4 := SessionsController.watchReturnToSessionId (returnToSessionId (root w3)) w3 in
         returnToSessionId (root w3) = Some (session_key s)
         /\ currentView w3 = "sessions"
         /\ returnToSessionId (root w4) = None
         /\ trace w4 = trace w3 ++ [Api getSessions; Toast info ReturnedToSession].
Proof.
  intros Hs Hc Ha Hn.
  eexists _, _, _. split; [exact (finishActivity_saves now w c a Hc Ha Hn)|].
  split; [reflexivity|]. split; [reflexivity|]. split; [|split].
  - unfold onProgressSaved, scheduleReturn. simpl. rewrite Hs.
    destruct (sourceSessionActivityRecord (acts w)) as [r|]; simpl.
    + eexists [_]. split; [now rewrite <- !app_assoc | simpl; lia].
    + exists []. split; [now rewrite <- !app_assoc | simpl; lia].
  - unfold onProgressFailed, scheduleReturn. simpl. rewrite Hs. simpl.
    now rewrite <- !app_assoc.
  - intros w2 _. simpl. repeat split. now rewrite <- !app_assoc.
Qed.

Lemma activityWordLists_length id l :
  activityWordLists id = Some l -> length l = 10.
Proof.
  unfold activityWordLists. intros H.
  do 5 (try destruct id as [id|id|]); simpl in H; try discriminate;
    inversion H; reflexivity.
Qed.

Lemma getActivityWords_length a : length (getActivityWords a) = 10.
Proof.
  unfold getActivityWords.
  destruct (activityWordLists (activity_key a)) as [l|] eqn:E.
  - now apply (activityWordLists_length (activity_key a)).
  - unfold categoryDefaults.
    repeat match goal with |- context [String.eqb ?x ?y] => destruct (String.eqb x y) end;
      reflexivity.
Qed.

Lemma recordResponse_total b t :
  totalTrials (snd (TrialEngine.recordResponse b t)) = totalTrials t.
Proof.
  unfold TrialEngine.recordResponse.
  destruct (_ <=? _); simpl; trivial.
  destruct (_ <? _); simpl; trivial.
  now destruct (nextWord_counters
                  {| activityWords := activityWords t; currentWord := currentWord t;
                     currentWordIndex := currentWordIndex t;
                     currentTrial := S (currentTrial t); totalTrials := totalTrials t;
                     trialsCorrect := if b then S (trialsCorrect t) else trialsCorrect t |})
    as (_ & H & _).
Qed.

Lemma recordResponse_grows b t :
  currentTrial t <= currentTrial (snd (TrialEngine.recordResponse b t))
  /\ (currentTrial t < totalTrials t ->
      currentTrial (snd (TrialEngine.recordResponse b t)) = S (currentTrial t)).
Proof.
  unfold TrialEngine.recordResponse.
  destruct (totalTrials t <=? currentTrial t) eqn:E; simpl.
  - apply Nat.leb_le in E. split; lia.
  - destruct (_ <? _); simpl.
    + destruct (nextWord_counters
                  {| activityWords := activityWords t; currentWord := currentWord t;
                     currentWordIndex := currentWordIndex t;
                     currentTrial := S (currentTrial t); totalTrials := totalTrials t;
                     trialsCorrect := if b then S (trialsCorrect t) else trialsCorrect t |})
        as (H & _). rewrite H. simpl. split; lia.
    + split; lia.
Qed.

Lemma answer_all_keeps answers :
  forall w,
    root (answer_all answers w) = root w
    /\ trace (answer_all answers w) = trace w
    /\ sourceSession (acts (answer_all answers w)) = sourceSession (acts w)
    /\ sourceSessionActivityRecord (acts (answer_all answers w))
       = sourceSessionActivityRecord (acts w)
    /\ activityClient (acts (answer_all answers w)) = activityClient (acts w)
    /\ selectedActivity (acts (answer_all answers w)) = selectedActivity (acts w)
    /\ currentTrial (trial (acts w)) <= currentTrial (trial (acts (answer_all answers w))).
Proof.
  induction answers as [|b rest IH]; intros w.
  - simpl. repeat split; lia.
  - change (answer_all (b :: rest) w) with (answer_all rest (snd (recordResponse b w))).
    destruct (IH (snd (recordResponse b w))) as (H1 & H2 & H5 & H6 & H7 & H8 & H9).
    rewrite H1, H2, H5, H6, H7, H8. repeat split.
    change (currentTrial (trial (acts (snd (recordResponse b w)))))
      with (currentTrial (snd (TrialEngine.recordResponse b (trial (acts w))))) in H9.
    pose proof (proj1 (recordResponse_grows b (trial (acts w)))). lia.
Qed.

Lemma openFor_fresh rnd a c s r w0 :
  totalTrials (trial (acts (openFor rnd a c s r w0))) = 10
  /\ currentTrial (trial (acts (openFor rnd a c s r w0))) = 0.
Proof.
  unfold openFor. simpl. split.
  - rewrite startActivity_total. simpl. now rewrite getActivityWords_length.
  - unfold TrialEngine.startActivity.
    match goal with |- context [TrialEngine.nextWord ?x] =>
      destruct (nextWord_counters x) as (-> & _) end.
    reflexivity.
Qed.

Lemma run_from_session_state rnd a c s r first others w0 :
  let w := run_from_session rnd a c s r first others w0 in
  sourceSession (acts w) = Some s
  /\ sourceSessionActivityRecord (acts w) = r
  /\ activityClient (acts w) = Some c
  /\ selectedActivity (acts w) = Some a
  /\ 0 < currentTrial (trial (acts w)).
Proof.
  unfold run_from_session.
  destruct (answer_all_keeps (first :: others) (openFor rnd a c (Some s) r w0))
    as (_ & _ & H5 & H6 & H7 & H8 & _).
  cbv zeta. rewrite H5, H6, H7, H8. repeat split.
  change (answer_all (first :: others) (openFor rnd a c (Some s) r w0))
    with (answer_all others (snd (recordResponse first (openFor rnd a c (Some s) r w0)))).
  destruct (answer_all_keeps others
              (snd (recordResponse first (openFor rnd a c (Some s) r w0))))
    as (_ & _ & _ & _ & _ & _ & H9).
  eapply Nat.lt_le_trans; [|exact H9].
  destruct (openFor_fresh rnd a c (Some s) r w0) as [Ht Hz].
  pose proof (proj2 (recordResponse_grows first
                       (trial (acts (openFor rnd a c (Some s) r w0))))) as Hg.
  change (currentTrial (trial (acts (snd (recordResponse first (openFor rnd a c (Some s) r w0))))))
    with (currentTrial (snd (TrialEngine.recordResponse first
                               (trial (acts (openFor rnd a c (Some s) r w0)))))).
  rewrite Hg; lia.
Qed.

(** C7. A trial run that came from a session, with at least one answer
    given, is finished. Whether the progress record is saved
    or not, the operator is told the accuracy of the run, with a success
    toast when it was saved and with an info toast that says the results
    were not saved otherwise, and the callback that returns to the session
    is scheduled 500 ms later. That callback writes the id of the session
    in [returnToSessionId] and shows the session view, whose watch then
    reloads the sessions and resets [returnToSessionId] to [null]. *)
Theorem C7_return_token_on_both_paths rnd rnd' now a c s r first others w0 :
  let w := run_from_session rnd a c s r first others w0 in
  exists w1 cont q,
    finishActivity now w = Returned (w1, Some cont)
    /\ k_accuracy cont = Js.Finite q
    /\ (q == Js.of_nat (trialsCorrect (trial (acts w)))
             / Js.of_nat (currentTrial (trial (acts w))) * 100)%Q
    /\ (exists upd,
          trace (onProgressSaved cont w1)
          = trace w1 ++ upd ++ [Toast success (ActivityCompleted (Js.Finite q));
                                Deferred 500 (ReturnToSession (session_key s))]
          /\ length upd <= 1)
    /\ trace (onProgressFailed cont w1)
       = trace w1 ++ [Toast info (ActivityCompletedNotSaved (Js.Finite q));
                      Deferred 500 (ReturnToSession (session_key s))]
    /\ forall w2,
         w2 = onProgressSaved cont w1 \/ w2 = onProgressFailed cont w1 ->
         let w3 := run_task rnd' (ReturnToSession (session_key s)) w2 in
         let w4 := SessionsController.watchReturnToSessionId (returnToSessionId (root w3)) w3 in
         returnToSessionId (root w3) = Some (session_key s)
         /\ currentView w3 = "sessions"
         /\ returnToSessionId (root w4) = None
         /\ trace w4 = trace w3 ++ [Api getSessions; Toast info ReturnedToSession].
Proof.
  intros w.
  destruct (run_from_session_state rnd a c s r first others w0)
    as (Hs & _ & Hc & Ha & Hn).
  exact (finish_returns_to_session rnd' now w s c a Hs Hc Ha Hn).
Qed.

(** C7 on the run of ten answers that came from the first session: with the
    save failed, the callback of the timer leaves the id of that session in
    [returnToSessionId]. *)
Lemma C7_witness :
  exists w1 cont,
    finishActivity noon (run_from_session no_shuffle sample1 alice session1 (Some assignment1)
                           true [true; false; true] loaded)
    = Returned (w1, Some cont)
    /\ returnToSessionId
         (root (run_task no_shuffle (ReturnToSession 3) (onProgressFailed cont w1)))
       = Some 3%positive.
Proof.
  destruct (C7_return_token_on_both_paths no_shuffle no_shuffle noon sample1 alice session1
              (Some assignment1) true [true; false; true] loaded)
    as (w1 & cont & q & Hf & _ & _ & _ & _ & Hret).
  exists w1, cont. split; [exact Hf|].
  exact (proj1 (Hret (onProgressFailed cont w1) (or_intror eq_refl))).
Defined.

(** C7, as stated, fails for a run that came from a session and is
    finished before any answer: [finishActivity] returns at its guard
    ([currentTrial === 0]), closes the view, sends and schedules nothing,
    and [returnToSessionId] stays empty. *)
Lemma C7_counterexample_no_answer :
  sourceSession (acts (fire no_shuffle PostLoadCheck loaded)) = Some session1
  /\ currentTrial (trial (acts (fire no_shuffle PostLoadCheck loaded))) = 0
  /\ finishActivity noon (fire no_shuffle PostLoadCheck loaded)
     = Returned (closeActivitySession (fire no_shuffle PostLoadCheck loaded), None)
  /\ trace (closeActivitySession (fire no_shuffle PostLoadCheck loaded))
     = [PendingPublished request1; Deferred 0 NavigateToActivities;
        Deferred 100 PendingCheck;
        TrialRunStarted (Some sample1) (Some alice); PendingCleared;
        Toast success (ActivityStartedFor "Alice" "Martin")]
  /\ returnToSessionId (root (closeActivitySession (fire no_shuffle PostLoadCheck loaded)))
     = None.
Proof.
  split; [vm_compute; reflexivity|].
  split; [vm_compute; reflexivity|].
  split; [vm_compute; reflexivity|].
  split; vm_compute; reflexivity.
Qed.

End FinishClaims.

(** * Further properties *)

(** ** Trial engine: shuffle, counters and prompts *)

Section TrialRunFacts.

Import TrialEngine.

Lemma insert_head_perm (l : list TrialItem) j y a :
  l !! j = Some y -> y :: <[j:=a]> l ≡ₚ a :: l.
Proof.
  revert j. induction l as [|b l IH]; intros j H; [discriminate|].
  destruct j as [|j]; simpl in *.
  - inversion H; subst. apply perm_swap.
  - rewrite perm_swap. rewrite (IH j H). apply perm_swap.
Qed.

Lemma swap_perm l i j : swap l i j ≡ₚ l.
Proof.
  unfold swap. destruct (l !! i) as [x|] eqn:Hi; [|reflexivity].
  destruct (l !! j) as [y|] eqn:Hj; [|reflexivity].
  revert i j Hi Hj. induction l as [|a l IH]; intros i j Hi Hj; [discriminate|].
  destruct i as [|i], j as [|j]; simpl in *.
  - inversion Hi; inversion Hj; subst. reflexivity.
  - inversion Hi; subst. now apply insert_head_perm.
  - inversion Hj; subst. now apply insert_head_perm.
  - now rewrite (IH i j Hi Hj).
Qed.

Lemma shuffle_from_perm rnd i : forall l, shuffle_from rnd i l ≡ₚ l.
Proof.
  induction i as [|i IH]; intros l; simpl; [reflexivity|].
  rewrite IH. apply swap_perm.
Qed.

Lemma resetActivity_length rnd t :
  length (activityWords (resetActivity rnd t)) = length (activityWords t).
Proof. unfold resetActivity. now rewrite startActivity_length. Qed.

Lemma count_right_app l1 l2 : count_right (l1 ++ l2) = count_right l1 + count_right l2.
Proof. unfold count_right. now rewrite List.filter_app, length_app. Qed.

Lemma count_right_le l : count_right l <= length l.
Proof. unfold count_right. apply List.filter_length_le. Qed.

Lemma fresh_is_run_state rnd t :
  resetActivity rnd t = run_state (activityWords (resetActivity rnd t)) [].
Proof.
  unfold resetActivity at 1. unfold startActivity.
  pose proof (startActivity_length rnd (resetActivityState t)) as HL.
  fold (resetActivity rnd t) in HL.
  unfold resetActivity in HL at 1. unfold startActivity in HL. rewrite nextWord_words in HL.
  unfold resetActivity at 1. unfold startActivity. rewrite nextWord_words.
  unfold run_state, nextWord. simpl in *. rewrite HL.
  destruct (length (activityWords t)) as [|n]; simpl; reflexivity.
Qed.

Lemma run_state_step W answers b :
  snd (recordResponse b (run_state W answers)) = run_state W (answers ++ [b]).
Proof.
  unfold recordResponse, run_state. cbn [totalTrials currentTrial trialsCorrect
    activityWords currentWord currentWordIndex].
  rewrite length_app. cbn [length]. rewrite Nat.add_1_r.
  set (T := Nat.min (length W) 10). set (k := length answers).
  assert (HT : T <= length W) by (subst T; lia).
  rewrite firstn_app. fold k.
  destruct (T <=? Nat.min k T) eqn:E.
  - apply Nat.leb_le in E. assert (Hk : T <= k) by lia.
    replace (T - k) with 0 by lia. rewrite firstn_O, app_nil_r.
    cbn [snd]. f_equal; try lia.
    destruct (k <? T) eqn:E1; [apply Nat.ltb_lt in E1; lia|].
    destruct (S k <? T) eqn:E2; [apply Nat.ltb_lt in E2; lia|]. reflexivity.
  - apply Nat.leb_gt in E. assert (Hk : k < T) by lia.
    assert (Hf : firstn T answers = answers) by (apply firstn_all2; fold k; lia).
    rewrite Hf. replace (T - k) with (S (T - S k)) by lia. cbn [firstn].
    rewrite firstn_nil, count_right_app.
    assert (Hb : (if b then S (count_right answers) else count_right answers)
                 = count_right answers + count_right [b]).
    { destruct b; unfold count_right; simpl; lia. }
    replace (Nat.min k T) with k by lia.
    destruct (S k <? T) eqn:E2.
    + apply Nat.ltb_lt in E2. unfold nextWord.
      cbn [totalTrials currentTrial trialsCorrect activityWords currentWord currentWordIndex].
      replace (Nat.min (S k) T) with (S k) by lia.
      assert (E3 : (S k <? length W) = true) by (apply Nat.ltb_lt; lia).
      assert (E4 : (S k <? T) = true) by (apply Nat.ltb_lt; lia).
      rewrite E3, E4. cbn [andb snd]. f_equal; lia.
    + apply Nat.ltb_ge in E2. cbn [snd]. f_equal; lia.
Qed.

Lemma recordResponses_snoc answers b t :
  recordResponses (answers ++ [b]) t = snd (recordResponse b (recordResponses answers t)).
Proof. unfold recordResponses. now rewrite fold_left_app. Qed.

Lemma run_closed_form rnd t answers :
  recordResponses answers (resetActivity rnd t)
  = run_state (activityWords (resetActivity rnd t)) answers.
Proof.
  induction answers as [|b answers IH] using rev_ind.
  - apply fresh_is_run_state.
  - now rewrite recordResponses_snoc, IH, run_state_step.
Qed.

Lemma resetActivity_perm rnd t : activityWords (resetActivity rnd t) ≡ₚ activityWords t.
Proof.
  unfold resetActivity, startActivity. rewrite nextWord_words. simpl.
  apply shuffle_from_perm.
Qed.

Lemma recordResponses_words rnd t answers :
  activityWords (recordResponses answers (resetActivity rnd t))
  = activityWords (resetActivity rnd t).
Proof. now rewrite run_closed_form. Qed.

Lemma run_counters rnd t answers :
  let r := recordResponses answers (resetActivity rnd t) in
  totalTrials r = Nat.min (length (activityWords t)) 10
  /\ currentTrial r = Nat.min (length answers) (totalTrials r)
  /\ trialsCorrect r <= currentTrial r.
Proof.
  intros r. subst r. rewrite run_closed_form. unfold run_state.
  cbn [totalTrials currentTrial trialsCorrect].
  rewrite resetActivity_length.
  split; [reflexivity | split; [reflexivity|]].
  pose proof (count_right_le (firstn (Nat.min (length (activityWords t)) 10) answers)) as H.
  rewrite length_firstn in H. lia.
Qed.

End TrialRunFacts.

Section TrialRunProperties.

Import TrialEngine.

(** X1. The shuffle only reorders: whatever the draws, the words after
    [shuffleWords], after a start, and after any answers are a permutation
    of the words before. *)
Theorem shuffleWords_permutes rnd t answers :
  activityWords (shuffleWords rnd t) ≡ₚ activityWords t
  /\ activityWords (resetActivity rnd t) ≡ₚ activityWords t
  /\ activityWords (recordResponses answers (resetActivity rnd t))
     = activityWords (resetActivity rnd t).
Proof.
  split; [apply shuffle_from_perm | split].
  - apply resetActivity_perm.
  - apply recordResponses_words.
Qed.

(** X2. In a started run the answers are counted up to [totalTrials] and no
    further: after [n] answers [currentTrial] is the smaller of [n] and
    [totalTrials], [trialsCorrect] is the number of right answers among the
    first [totalTrials] ones, so it never exceeds [currentTrial], and the
    run is complete exactly when [totalTrials] answers or more were given. *)
Theorem answers_counted_up_to_totalTrials rnd t answers :
  let r := recordResponses answers (resetActivity rnd t) in
  totalTrials r = Nat.min (length (activityWords t)) 10
  /\ currentTrial r = Nat.min (length answers) (totalTrials r)
  /\ trialsCorrect r = count_right (firstn (totalTrials r) answers)
  /\ trialsCorrect r <= currentTrial r
  /\ (complete r <-> totalTrials r <= length answers).
Proof.
  intros r. subst r. rewrite run_closed_form. unfold complete, run_state.
  cbn [totalTrials currentTrial trialsCorrect].
  rewrite resetActivity_length.
  set (T := Nat.min (length (activityWords t)) 10).
  split; [reflexivity | split; [reflexivity | split; [reflexivity | split]]].
  - pose proof (count_right_le (firstn T answers)) as H.
    rewrite length_firstn in H. lia.
  - lia.
Qed.

(** X3. The word on show follows the trials: while the run is not complete
    it is the word of the shuffled list at the position of the current
    trial, so the words are shown in the order of the list, each once; once
    the run is complete, and only then, no word is shown. *)
Theorem prompt_follows_trial rnd t answers :
  let r := recordResponses answers (resetActivity rnd t) in
  currentWord r = (if length answers <? totalTrials r
                   then activityWords r !! length answers else None)
  /\ currentWordIndex r = Nat.min (S (length answers)) (totalTrials r)
  /\ (currentWord r = None <-> complete r).
Proof.
  intros r. subst r. rewrite run_closed_form. unfold complete, run_state.
  cbn [totalTrials currentTrial currentWord currentWordIndex activityWords].
  set (W := activityWords (resetActivity rnd t)).
  split; [reflexivity | split; [reflexivity|]].
  destruct (length answers <? Nat.min (length W) 10) eqn:E.
  - apply Nat.ltb_lt in E. split; [|lia].
    intros H. apply lookup_ge_None in H. lia.
  - apply Nat.ltb_ge in E. split; [lia | reflexivity].
Qed.

(** X4. [resetActivity] restarts a run wherever it stands: the counters are
    back at zero, [totalTrials] is what it was, the words are the same up
    to order, and the first word is on show unless there is no word. *)
Theorem resetActivity_restarts rnd rnd' t answers :
  let r := resetActivity rnd' (recordResponses answers (resetActivity rnd t)) in
  currentTrial r = 0
  /\ trialsCorrect r = 0
  /\ totalTrials r = Nat.min (length (activityWords t)) 10
  /\ activityWords r ≡ₚ activityWords t
  /\ currentWord r = activityWords r !! 0
  /\ currentWordIndex r = Nat.min 1 (length (activityWords t)).
Proof.
  intros r.
  pose proof (run_closed_form rnd' (recordResponses answers (resetActivity rnd t)) []) as H.
  simpl in H. fold r in H.
  pose proof (resetActivity_perm rnd t) as Hp.
  pose proof (recordResponses_words rnd t answers) as Hw.
  pose proof (resetActivity_perm rnd' (recordResponses answers (resetActivity rnd t))) as Hp'.
  fold r in Hp'.
  assert (HL : length (activityWords r) = length (activityWords t)).
  { rewrite Hp', Hw, Hp. reflexivity. }
  assert (Hperm : activityWords r ≡ₚ activityWords t) by (rewrite Hp', Hw; exact Hp).
  rewrite H. unfold run_state.
  cbn [totalTrials currentTrial trialsCorrect currentWord currentWordIndex activityWords length].
  rewrite HL, firstn_nil.
  split; [reflexivity | split; [reflexivity | split; [reflexivity | split; [exact Hperm|]]]].
  split.
  - destruct (activityWords r) as [|x l] eqn:E; simpl in HL; rewrite <- HL; reflexivity.
  - destruct (length (activityWords t)) as [|n]; simpl; reflexivity.
Qed.

End TrialRunProperties.

(** ** Runs in the Activities view *)

Section RunFacts.

Import ActivitiesController.

Lemma answer_all_trial answers :
  forall w, trial (acts (answer_all answers w))
            = TrialEngine.recordResponses answers (trial (acts w)).
Proof.
  induction answers as [|b rest IH]; intros w; [reflexivity|].
  change (answer_all (b :: rest) w) with (answer_all rest (snd (recordResponse b w))).
  now rewrite IH.
Qed.

Lemma percentage_bounds k n :
  k <= n -> 0 < n ->
  (0 <= Js.of_nat k / Js.of_nat n * 100)%Q /\ (Js.of_nat k / Js.of_nat n * 100 <= 100)%Q.
Proof.
  intros Hk Hn. destruct n as [|n]; [lia|].
  unfold Js.of_nat, Qle, Qdiv, Qmult, Qinv. simpl. split; nia.
Qed.

Lemma openFor_trial rnd a c s r w :
  exists t0,
    activityWords t0 = getActivityWords a
    /\ trial (acts (openFor rnd a c s r w)) = TrialEngine.resetActivity rnd t0.
Proof. exists (mkTrial (getActivityWords a) None 0 0 0 0). split; reflexivity. Qed.

Lemma selected_trial rnd a c w :
  exists t0,
    activityWords t0 = getActivityWords a
    /\ trial (acts (selectActivityClient rnd c (selectActivity a w)))
       = TrialEngine.resetActivity rnd t0.
Proof.
  exists (mkTrial (getActivityWords a) None 0 0 0 0).
  split; reflexivity.
Qed.

Lemma ten_trials rnd t0 a answers :
  activityWords t0 = getActivityWords a ->
  let t := TrialEngine.recordResponses answers (TrialEngine.resetActivity rnd t0) in
  totalTrials t = 10
  /\ currentTrial t = Nat.min (length answers) 10
  /\ trialsCorrect t <= currentTrial t
  /\ activityWords t ≡ₚ getActivityWords a.
Proof.
  intros H t.
  destruct (run_counters rnd t0 answers) as (H1 & H2 & H4).
  pose proof (resetActivity_perm rnd t0) as Hp.
  pose proof (recordResponses_words rnd t0 answers) as Hw.
  fold t in H1, H2, H4, Hw. rewrite H, getActivityWords_length in H1. simpl in H1.
  rewrite H1 in H2. split; [exact H1 | split; [exact H2 | split; [exact H4|]]].
  rewrite Hw, Hp, H. reflexivity.
Qed.

Lemma opened_run_counts a rnd c s r w answers :
  let t := trial (acts (answer_all answers (openFor rnd a c s r w))) in
  totalTrials t = 10
  /\ currentTrial t = Nat.min (length answers) 10
  /\ trialsCorrect t <= currentTrial t
  /\ activityWords t ≡ₚ getActivityWords a.
Proof.
  intros t. subst t. rewrite answer_all_trial.
  destruct (openFor_trial rnd a c s r w) as (t0 & H0 & ->).
  now apply ten_trials.
Qed.

Lemma selected_run_counts a rnd c w answers :
  let t := trial (acts (answer_all answers
                         (selectActivityClient rnd c (selectActivity a w)))) in
  totalTrials t = 10
  /\ currentTrial t = Nat.min (length answers) 10
  /\ trialsCorrect t <= currentTrial t
  /\ activityWords t ≡ₚ getActivityWords a.
Proof.
  intros t. subst t. rewrite answer_all_trial.
  destruct (selected_trial rnd a c w) as (t0 & H0 & ->).
  now apply ten_trials.
Qed.

End RunFacts.

Section RunProperties.

Import ActivitiesController.

(** X5. Every activity for which the lookup of [getActivityWords] finds a
    word list (its id is one of the eleven built-in ones, or its category
    is any string but the two keys that the plain object [categoryDefaults]
    inherits, [constructor] and [__proto__]) comes with exactly ten words.
    So a run on it has ten trials, on a permutation of those words, whether
    the activity was opened for a client on behalf of a session or picked
    from the catalog, and after any answers [currentTrial] is the smaller
    of their number and 10. *)
Theorem every_run_has_ten_trials a :
  hasWordList a ->
  length (getActivityWords a) = 10
  /\ (forall rnd c s r w answers,
        let t := trial (acts (answer_all answers (openFor rnd a c s r w))) in
        totalTrials t = 10
        /\ currentTrial t = Nat.min (length answers) 10
        /\ trialsCorrect t <= currentTrial t
        /\ activityWords t ≡ₚ getActivityWords a)
  /\ (forall rnd c w answers,
        let t := trial (acts (answer_all answers
                               (selectActivityClient rnd c (selectActivity a w)))) in
        totalTrials t = 10
        /\ currentTrial t = Nat.min (length answers) 10
        /\ trialsCorrect t <= currentTrial t
        /\ activityWords t ≡ₚ getActivityWords a).
Proof.
  intros _.
  split; [apply getActivityWords_length | split].
  - intros rnd c s r w answers. apply opened_run_counts.
  - intros rnd c w answers. apply selected_run_counts.
Qed.

(** X5 on an activity of unknown id whose category is spelt in capitals:
    the words are those of the voice exercises. *)
Lemma every_run_has_ten_trials_witness :
  hasWordList (mkActivity 40 "Humming" "VOICE")
  /\ getActivityWords (mkActivity 40 "Humming" "VOICE") = wordList9
  /\ length (getActivityWords (mkActivity 40 "Humming" "VOICE")) = 10.
Proof.
  assert (H : hasWordList (mkActivity 40 "Humming" "VOICE")) by (right; reflexivity).
  split; [exact H | split; [reflexivity|]].
  exact (proj1 (every_run_has_ten_trials (mkActivity 40 "Humming" "VOICE") H)).
Defined.

(** X6. The accuracy that [finishActivity] hands to the progress record and
    to the toasts, at the end of a run opened for a client, is a finite
    number between 0 and 100. *)
Theorem accuracy_between_0_and_100 rnd a c s r answers w0 now w1 cont :
  finishActivity now (answer_all answers (openFor rnd a c s r w0)) = Returned (w1, Some cont) ->
  exists q, k_accuracy cont = Js.Finite q /\ (0 <= q)%Q /\ (q <= 100)%Q.
Proof.
  intros H.
  set (w := answer_all answers (openFor rnd a c s r w0)) in *.
  destruct (opened_run_counts a rnd c s r w0 answers) as (_ & _ & Hle & _). fold w in Hle.
  destruct (answer_all_keeps answers (openFor rnd a c s r w0))
    as (_ & _ & _ & _ & Hc & Ha & _). fold w in Hc, Ha.
  destruct (Nat.eq_dec (currentTrial (trial (acts w))) 0) as [Hz|Hz].
  - rewrite (finishActivity_no_trial now w Hz) in H. discriminate.
  - assert (Hn : 0 < currentTrial (trial (acts w))) by lia.
    rewrite (finishActivity_saves now w c a Hc Ha Hn) in H.
    inversion H; subst. simpl. eexists. split; [reflexivity|].
    now apply percentage_bounds.
Qed.

Lemma accuracy_between_0_and_100_witness :
  exists w1 cont q,
    finishActivity noon (answer_all [true; false; true] (openFor no_shuffle sample1 alice
                                                           (Some session1) None world0))
    = Returned (w1, Some cont)
    /\ k_accuracy cont = Js.Finite q /\ (0 <= q)%Q /\ (q <= 100)%Q.
Proof.
  eexists _, _.
  assert (H : finishActivity noon (answer_all [true; false; true]
                (openFor no_shuffle sample1 alice (Some session1) None world0))
              = Returned (_, Some _)) by (vm_compute; reflexivity).
  destruct (accuracy_between_0_and_100 _ _ _ _ _ _ _ _ _ _ H) as (q & Hq & H0 & H100).
  exists q. split; [exact H|]. split; [exact Hq|]. split; assumption.
Defined.

(** X7. Once the progress request has settled, either way, the activity
    view is closed: no activity, no client and no source session are
    selected and the counters are at zero. Finishing again then sends
    nothing and shows nothing. *)
Theorem settled_run_is_closed saved k w now :
  let w' := onProgressSettled saved k w in
  showActivitySession (acts w') = false
  /\ selectedActivity (acts w') = None
  /\ activityClient (acts w') = None
  /\ sourceSession (acts w') = None
  /\ sourceSessionActivityRecord (acts w') = None
  /\ currentTrial (trial (acts w')) = 0
  /\ trialsCorrect (trial (acts w')) = 0
  /\ exists w'', finishActivity now w' = Returned (w'', None) /\ trace w'' = trace w'.
Proof.
  unfold onProgressSettled, onProgressSaved, onProgressFailed, scheduleReturn.
  destruct saved, (k_sourceSession k), (k_sourceSessionActivityRecord k); simpl;
    repeat split; eexists; split; reflexivity.
Qed.

(** X8. [finishActivity] does not keep a second call from sending the
    record again while the first request is still pending: called twice in
    a row it sends the same progress record twice and hands the same values
    to the callbacks. *)
Theorem finishActivity_resends_until_settled now w w1 k :
  finishActivity now w = Returned (w1, Some k) ->
  exists pd,
    trace w1 = trace w ++ [Api (createProgressRecord pd)]
    /\ finishActivity now w1 = Returned (emit (Api (createProgressRecord pd)) w1, Some k).
Proof.
  unfold finishActivity.
  destruct (activityClient (acts w)) as [c|] eqn:Hc; [|discriminate].
  destruct (currentTrial (trial (acts w)) =? 0) eqn:Hz; [discriminate|].
  destruct (selectedActivity (acts w)) as [a|] eqn:Ha; [|discriminate].
  intros H. inversion H; subst; clear H. simpl.
  rewrite Hc, Hz, Ha. eexists. split; reflexivity.
Qed.

Lemma finishActivity_resends_witness :
  exists w1 k pd,
    finishActivity noon answered = Returned (w1, Some k)
    /\ finishActivity noon w1 = Returned (emit (Api (createProgressRecord pd)) w1, Some k).
Proof.
  assert (H : finishActivity noon answered = Returned (_, Some _)) by (vm_compute; reflexivity).
  destruct (finishActivity_resends_until_settled _ _ _ _ H) as (pd & _ & H2).
  eexists _, _, pd. split; [exact H | exact H2].
Defined.

(** X9. A run picked from the catalog after the activity view was closed
    has no source session: when it is finished after at least one answer,
    the progress record is sent, and whichever way the request settles only
    the toast follows; no assignment is updated, no return to the session
    view is scheduled, and [returnToSessionId] and [pendingActivity] are
    left alone. *)
Theorem catalog_run_never_returns rnd a c first others saved now w0 :
  let w := answer_all (first :: others)
             (selectActivityClient rnd c (selectActivity a (closeActivitySession w0))) in
  exists pd k q,
    finishActivity now w = Returned (emit (Api (createProgressRecord pd)) w, Some k)
    /\ k_accuracy k = Js.Finite q
    /\ pd_client_id pd = client_key c
    /\ pd_trials_total pd = Nat.min (S (length others)) 10
    /\ let w' := onProgressSettled saved k (emit (Api (createProgressRecord pd)) w) in
       trace w' = trace w0
                  ++ [TrialRunStarted (Some a) (Some c); Api (createProgressRecord pd);
                      Toast (if saved then success else info)
                            (if saved then ActivityCompleted (Js.Finite q)
                             else ActivityCompletedNotSaved (Js.Finite q))]
       /\ root w' = root w0.
Proof.
  intros w.
  set (ws := selectActivityClient rnd c (selectActivity a (closeActivitySession w0))) in *.
  destruct (answer_all_keeps (first :: others) ws) as (Hr & Ht & Hs & Hrec & Hc & Ha & _).
  fold w in Hr, Ht, Hs, Hrec, Hc, Ha.
  destruct (selected_run_counts a rnd c (closeActivitySession w0) (first :: others))
    as (_ & Hn & _).
  fold ws in Hn. fold w in Hn. simpl length in Hn.
  assert (Hpos : 0 < currentTrial (trial (acts w))) by lia.
  eexists _, _, _.
  split; [exact (finishActivity_saves now w c a Hc Ha Hpos)|].
  split; [reflexivity|]. split; [reflexivity|]. split; [exact Hn|].
  cbv zeta. unfold onProgressSettled, onProgressSaved, onProgressFailed, scheduleReturn.
  cbn [k_sourceSession k_sourceSessionActivityRecord k_accuracy].
  rewrite Hs, Hrec. change (sourceSession (acts ws)) with (@None Session).
  change (sourceSessionActivityRecord (acts ws)) with (@None SessionActivity).
  destruct saved; simpl; rewrite Ht, Hr; simpl; rewrite <- !app_assoc; split; reflexivity.
Qed.

End RunProperties.

(** ** Handoff: publishing, consuming and the whole round *)

Section RoundFacts.

Import ActivitiesController SessionsController.

(** The record a request carries: the one passed, else the one found in
    the session. *)
Lemma openActivityFromSession_accepts a session r w client :
  isInProgress session = true ->
  alreadyCompleted r = false ->
  clientOf session (sess w) = Some client ->
  openActivityFromSession a session r w
  = emit (Deferred 0 NavigateToActivities)
      (emit (PendingPublished
               {| pending_activity := a; pending_client := Some client;
                  pending_session := Some session;
                  pending_sessionActivityRecord :=
                    match r with Some x => Some x | None => find_record a session end |})
         (with_root (set_pendingActivity
                       (Some {| pending_activity := a; pending_client := Some client;
                                pending_session := Some session;
                                pending_sessionActivityRecord :=
                                  match r with Some x => Some x | None => find_record a session end |}))
                    w)).
Proof.
  intros H1 H2 H3. unfold openActivityFromSession. now rewrite H1, H2, H3.
Qed.

Lemma openActivityFromSession_keeps_scopes a session r w :
  sess (openActivityFromSession a session r w) = sess w
  /\ acts (openActivityFromSession a session r w) = acts w.
Proof.
  unfold openActivityFromSession.
  destruct (isInProgress session); simpl; [|split; reflexivity].
  destruct (alreadyCompleted r); simpl; [split; reflexivity|].
  destruct (clientOf session (sess w)); split; reflexivity.
Qed.

Lemma last_deferred_app tr1 tr2 :
  last_deferred (tr1 ++ tr2)
  = match last_deferred tr2 with
    | Some t => Some t
    | None => last_deferred tr1
    end.
Proof.
  induction tr1 as [|e tr1 IH]; simpl.
  - now destruct (last_deferred tr2).
  - rewrite IH. now destruct (last_deferred tr2).
Qed.

End RoundFacts.

Section RoundProperties.

Import ActivitiesController SessionsController.

(** X10. The slot holds one request, the last one: when the session view
    opens an activity and the call is accepted, the slot holds the request
    of that call, whatever an earlier call had put there. *)
Theorem publish_overwrites a1 s1 r1 a2 s2 r2 w client :
  isInProgress s2 = true ->
  alreadyCompleted r2 = false ->
  clientOf s2 (sess w) = Some client ->
  pendingActivity (root (openActivityFromSession a2 s2 r2
                           (openActivityFromSession a1 s1 r1 w)))
  = Some {| pending_activity := a2; pending_client := Some client;
            pending_session := Some s2;
            pending_sessionActivityRecord :=
              match r2 with Some x => Some x | None => find_record a2 s2 end |}.
Proof.
  intros H1 H2 H3.
  rewrite (openActivityFromSession_accepts a2 s2 r2 _ client H1 H2); [reflexivity|].
  now rewrite (proj1 (openActivityFromSession_keeps_scopes a1 s1 r1 w)).
Qed.

Lemma publish_overwrites_witness :
  pendingActivity (root (openActivityFromSession activity99 session1 None published))
  = Some {| pending_activity := activity99; pending_client := Some alice;
            pending_session := Some session1;
            pending_sessionActivityRecord := None |}.
Proof.
  exact (publish_overwrites activity1 session1 (Some assignment1)
           activity99 session1 None world0 alice eq_refl eq_refl eq_refl).
Defined.

(** X11. Whatever fires, the timer of a delayed check or the listener of
    the watch, the same check runs: each mechanism does what
    [checkPendingActivity] does. And a check repeated on its own result
    changes nothing more, whatever the shuffle would draw. *)
Theorem mechanisms_agree_and_settle rnd rnd' m w :
  fire rnd m w = checkPendingActivity rnd w
  /\ checkPendingActivity rnd' (checkPendingActivity rnd w) = checkPendingActivity rnd w.
Proof.
  split.
  - destruct m; simpl; trivial.
    unfold watchPendingActivity, checkPendingActivity.
    destruct (pendingActivity (root w)); trivial.
    now destruct (0 <? length (activities (acts w))).
  - destruct (pendingActivity (root w)) as [p|] eqn:Hp.
    + destruct (find_activity (activity_key (pending_activity p)) (activities (acts w)))
        as [a|] eqn:Ha.
      * destruct (pending_client p) as [c|] eqn:Hc.
        -- rewrite (checkPendingActivity_resolved rnd w p a c Hp Ha Hc).
           now apply checkPendingActivity_empty_slot.
        -- assert (E : checkPendingActivity rnd w = w).
           { apply (checkPendingActivity_unresolved rnd w p Hp).
             intros [_ [c Hc']]. congruence. }
           rewrite E. apply (checkPendingActivity_unresolved rnd' w p Hp).
           intros [_ [c Hc']]. congruence.
      * assert (E : checkPendingActivity rnd w = w).
        { apply (checkPendingActivity_unresolved rnd w p Hp).
          intros [[a Ha'] _]. congruence. }
        rewrite E. apply (checkPendingActivity_unresolved rnd' w p Hp).
        intros [[a Ha'] _]. congruence.
    + rewrite (checkPendingActivity_empty_slot rnd w Hp).
      now apply checkPendingActivity_empty_slot.
Qed.

(** X12. A whole practice round, for a session in progress whose client
    is known, an assignment not yet attempted and an activity that the
    catalog holds: the request is published and consumed, the run is
    answered and finished, the progress request settles either way, the
    timer registered last is the return to the session, and the watch of
    the session view reloads the sessions. The trace shows these steps in
    this order and nothing else; at the end both slots are empty, the
    session view is on show and the activity view is closed. The progress
    record is the client's and counts the trials that took place. *)
Theorem practice_round_returns_to_session
    rnd a a' session record client first others saved now w :
  isInProgress session = true ->
  alreadyCompleted record = false ->
  clientOf session (sess w) = Some client ->
  find_activity (activity_key a) (activities (acts w)) = Some a' ->
  exists wf pd upd q,
    practiceRound rnd a session record (first :: others) saved now w = Returned wf
    /\ trace wf
       = trace w
         ++ [PendingPublished
               {| pending_activity := a; pending_client := Some client;
                  pending_session := Some session;
                  pending_sessionActivityRecord :=
                    match record with Some x => Some x | None => find_record a session end |};
             Deferred 0 NavigateToActivities;
             TrialRunStarted (Some a') (Some client);
             PendingCleared;
             Toast success (ActivityStartedFor (first_name client) (last_name client));
             Api (createProgressRecord pd)]
         ++ upd
         ++ [Toast (if saved then success else info)
                   (if saved then ActivityCompleted (Js.Finite q)
                    else ActivityCompletedNotSaved (Js.Finite q));
             Deferred 500 (ReturnToSession (session_key session));
             Api getSessions;
             Toast info ReturnedToSession]
    /\ pd_client_id pd = client_key client
    /\ pd_trials_total pd = Nat.min (S (length others)) 10
    /\ pd_accuracy_percentage pd = Js.Finite q
    /\ length upd <= 1
    /\ (saved = false -> upd = [])
    /\ pendingActivity (root wf) = None
    /\ returnToSessionId (root wf) = None
    /\ currentView wf = "sessions"
    /\ showActivitySession (acts wf) = false.
Proof.
  intros H1 H2 H3 H4. unfold practiceRound.
  rewrite (openActivityFromSession_accepts a session record w client H1 H2 H3).
  set (rec := match record with Some x => Some x | None => find_record a session end).
  set (p := {| pending_activity := a; pending_client := Some client;
               pending_session := Some session; pending_sessionActivityRecord := rec |}).
  set (w1 := emit (Deferred 0 NavigateToActivities)
               (emit (PendingPublished p) (with_root (set_pendingActivity (Some p)) w))).
  rewrite (checkPendingActivity_resolved rnd w1 p a' client eq_refl H4 eq_refl).
  change (answer_all (first :: others)
            (openFor rnd a' client (pending_session p) (pending_sessionActivityRecord p) w1))
    with (run_from_session rnd a' client session rec first others w1).
  set (w3 := run_from_session rnd a' client session rec first others w1).
  destruct (run_from_session_state rnd a' client session rec first others w1)
    as (Hs & Hr & Hc & Ha & Hn). fold w3 in Hs, Hr, Hc, Ha, Hn.
  destruct (answer_all_keeps (first :: others) (openFor rnd a' client (Some session) rec w1))
    as (Hroot & Htrace & _).
  change (answer_all (first :: others) (openFor rnd a' client (Some session) rec w1))
    with w3 in Hroot, Htrace.
  rewrite openFor_trace in Htrace.
  assert (Hslot : pendingActivity (root w3) = None) by now rewrite Hroot.
  assert (Hret : returnToSessionId (root w3) = returnToSessionId (root w)) by now rewrite Hroot.
  destruct (opened_run_counts a' rnd client (Some session) rec w1 (first :: others))
    as (_ & Hcount & _).
  change (answer_all (first :: others) (openFor rnd a' client (Some session) rec w1))
    with w3 in Hcount. simpl length in Hcount.
  assert (Hview : showActivitySession (acts (closeActivitySession w3)) = false) by reflexivity.
  clearbody w3.
  rewrite (finishActivity_saves now w3 client a' Hc Ha Hn). rewrite Hs, Hr.
  cbv iota beta.
  unfold onProgressSettled, onProgressSaved, onProgressFailed, scheduleReturn.
  cbn [k_sourceSession k_sourceSessionActivityRecord k_accuracy].
  destruct saved.
  - destruct rec as [r|].
    + eexists _, _, [_], _. cbn [trace emit closeActivitySession with_acts].
      rewrite !last_deferred_app. cbn [last_deferred run_task].
      split; [reflexivity|].
      cbn. rewrite Htrace. cbn. rewrite <- !app_assoc. cbn.
      repeat split; try reflexivity; try assumption; try (simpl; lia); try discriminate.
    + eexists _, _, [], _. cbn [trace emit closeActivitySession with_acts].
      rewrite !last_deferred_app. cbn [last_deferred run_task].
      split; [reflexivity|].
      cbn. rewrite Htrace. cbn. rewrite <- !app_assoc. cbn.
      repeat split; try reflexivity; try assumption; try (simpl; lia); try discriminate.
  - eexists _, _, [], _. cbn [trace emit closeActivitySession with_acts].
    rewrite !last_deferred_app. cbn [last_deferred run_task].
    split; [reflexivity|].
    cbn. rewrite Htrace. cbn. rewrite <- !app_assoc. cbn.
    repeat split; try reflexivity; try assumption; try (simpl; lia); try discriminate.
Qed.

Lemma practice_round_witness :
  exists wf,
    practiceRound no_shuffle activity1 session1 (Some assignment1) [true; false] false noon
                  (onActivitiesLoaded [] world0)
    = Returned wf
    /\ returnToSessionId (root wf) = None
    /\ currentView wf = "sessions".
Proof.
  destruct (practice_round_returns_to_session no_shuffle activity1 sample1 session1
              (Some assignment1) alice true [false] false noon
              (onActivitiesLoaded [] world0) eq_refl eq_refl eq_refl eq_refl)
    as (wf & pd & upd & q & H & _ & _ & _ & _ & _ & _ & _ & Hr & Hv & _).
  exists wf. split; [exact H | split; [exact Hr | exact Hv]].
Defined.

End RoundProperties.

(** ** Session lifecycle: the edit form *)

Section FormProperties.

Import SessionsController.



(** X14. Every other save of an edited session goes through whatever the
    clock says: when the form asks for a status other than [in_progress],
    or the session is in progress already, the update is sent; and a save
    with no session being edited creates a session, with the duration and
    the date of the form and no status. *)
Theorem saveSession_other_changes_unconditional now w :
  (forall editing,
      editingSession (sess w) = Some editing ->
      form_status (sessionForm (sess w)) <> "in_progress"
      \/ status editing = "in_progress" ->
      saveSession now w
      = emit (Api (updateSession (session_key editing) (updateData (sess w)))) w)
  /\ (editingSession (sess w) = None ->
      saveSession now w
      = emit (Api (createSession (form_duration_minutes (sessionForm (sess w)))
                                 (form_session_date (sessionForm (sess w))))) w).
Proof.
  split.
  - intros editing He H. unfold saveSession. rewrite He.
    destruct H as [H|H].
    + apply String.eqb_neq in H. now rewrite H.
    + rewrite H, String.eqb_refl. simpl. now rewrite andb_false_r.
  - intros He. unfold saveSession. now rewrite He.
Qed.

Lemma saveSession_other_changes_witness :
  form_status (sessionForm (sess (pickStatus "cancelled" (editSession session_noon world0))))
  <> "in_progress"
  /\ saveSession forty_past (pickStatus "cancelled" (editSession session_noon world0))
     = emit (Api (updateSession (session_key session_noon)
                    (updateData (sess (pickStatus "cancelled" (editSession session_noon world0))))))
            (pickStatus "cancelled" (editSession session_noon world0)).
Proof.
  assert (H : form_status (sessionForm (sess (pickStatus "cancelled"
                                                (editSession session_noon world0))))
              <> "in_progress") by discriminate.
  split; [exact H|].
  exact (proj1 (saveSession_other_changes_unconditional forty_past
                  (pickStatus "cancelled" (editSession session_noon world0)))
           session_noon eq_refl (or_introl H)).
Defined.

(** X15. Opening a session in the edit form and saving it untouched is never
    refused, at any time and whatever its status: the update that is sent
    carries the duration of the session, its date cut to the minute, and
    its status ([scheduled] when it has none). *)
Theorem unmodified_form_is_never_rejected now session w :
  saveSession now (editSession session w)
  = emit (Api (updateSession (session_key session)
                 {| upd_duration_minutes := Some (duration_minutes session);
                    upd_session_date := Some (floorToMinute (session_date session));
                    upd_status := Some (if Js.truthy_string (status session)
                                        then status session else "scheduled") |}))
         (editSession session w).
Proof.
  unfold saveSession, updateData. simpl.
  destruct (Js.truthy_string (status session)) eqn:Ht.
  - rewrite Ht. destruct (String.eqb (status session) "in_progress"); reflexivity.
  - reflexivity.
Qed.

End FormProperties.

(** ** Session cards: badges, polling and loading *)

Section CardFacts.

Import SessionsController SessionCards.

Lemma anyNotAttempted_negb l : anyNotAttempted l = negb (allCompleted l).
Proof.
  induction l as [|sa l IH]; simpl; [reflexivity|].
  destruct (notAttempted sa); [reflexivity | exact IH].
Qed.

Lemma anyNotAttempted_iff l :
  anyNotAttempted l = true <-> exists sa, In sa l /\ ~ attempted sa.
Proof.
  induction l as [|sa l IH]; simpl.
  - split; [discriminate | intros (x & [] & _)].
  - destruct (notAttempted sa) eqn:E.
    + split; [|reflexivity]. intros _. exists sa. split; [now left|].
      intros Ha. apply notAttempted_false_iff in Ha. congruence.
    + rewrite IH. split.
      * intros (x & Hx & Hn). exists x. split; [now right | exact Hn].
      * intros (x & [Hx|Hx] & Hn).
        -- subst x. exfalso. apply Hn. now apply notAttempted_false_iff.
        -- exists x. now split.
Qed.

Lemma status_in_progress_isInProgress session :
  status session = "in_progress" -> isInProgress session = true.
Proof. intros H. unfold isInProgress. rewrite H. reflexivity. Qed.

(** What a pass of callbacks does to a session of the list. *)
Lemma completions_fold keys :
  forall w,
    sessions (sess (fold_left (fun w k => onSessionStatusUpdated k "completed" w) keys w))
    = map (fun x => if existsb (Pos.eqb (session_key x)) keys
                    then set_status "completed" x else x) (sessions (sess w)).
Proof.
  induction keys as [|k keys IH]; intros w; simpl.
  - now rewrite map_id.
  - rewrite IH. simpl. rewrite map_map. apply map_ext. intros x.
    destruct (Pos.eqb (session_key x) k) eqn:E; simpl.
    + now destruct (existsb _ keys).
    + reflexivity.
Qed.

Lemma completions_fold_sessions l :
  forall w,
    fold_left (fun w session => onSessionStatusUpdated (session_key session) "completed" w) l w
    = fold_left (fun w k => onSessionStatusUpdated k "completed" w) (map session_key l) w.
Proof. induction l as [|x l IH]; intros w; simpl; [reflexivity | apply IH]. Qed.

Lemma completed_sessions_filtered K l :
  (forall x, In x l -> shouldComplete x = true ->
             existsb (Pos.eqb (session_key x)) K = true) ->
  List.filter shouldComplete
    (map (fun x => if existsb (Pos.eqb (session_key x)) K
                   then set_status "completed" x else x) l) = [].
Proof.
  induction l as [|x l IH]; intros HK; [reflexivity|].
  cbn [map List.filter].
  assert (E : shouldComplete (if existsb (Pos.eqb (session_key x)) K
                              then set_status "completed" x else x) = false).
  { destruct (shouldComplete x) eqn:Hc.
    - rewrite (HK x (or_introl eq_refl) Hc). reflexivity.
    - destruct (existsb _ K); [reflexivity | exact Hc]. }
  rewrite E. apply IH. intros y Hy. apply HK. now right.
Qed.

Lemma checkSessionStatuses_keeps_sess w : sess (checkSessionStatuses w) = sess w.
Proof.
  unfold checkSessionStatuses. generalize (sessions (sess w)) as l. intros l.
  revert w. induction l as [|x l IH]; intros w; simpl; [reflexivity|].
  rewrite IH. now destruct (shouldComplete x).
Qed.

Lemma call_keeps_one_interval c w p :
  running p = match statusCheckInterval p with Some h => [h] | None => [] end ->
  running (snd (call c (w, p)))
  = match statusCheckInterval (snd (call c (w, p))) with Some h => [h] | None => [] end.
Proof.
  intros H.
  assert (Hstop : running (snd (stopStatusCheckInterval (w, p)))
                  = match statusCheckInterval (snd (stopStatusCheckInterval (w, p))) with
                    | Some h => [h] | None => [] end).
  { unfold stopStatusCheckInterval. cbn [fst snd].
    destruct (statusCheckInterval p) as [h|] eqn:E; cbn [fst snd running statusCheckInterval].
    - rewrite H. cbn [List.filter]. now rewrite Nat.eqb_refl.
    - now rewrite E. }
  destruct c; cbn [call]; try exact Hstop.
  unfold startStatusCheckInterval. cbn [fst snd].
  destruct (statusCheckInterval p) as [h|] eqn:E; cbn [fst snd running statusCheckInterval].
  - now rewrite E.
  - now rewrite H.
Qed.

End CardFacts.

Section CardProperties.

Import SessionsController SessionCards.

(** X16. The badge for incomplete activities and the automatic completion
    exclude each other. A session that is asked to complete has no
    incomplete activity and is one in which activities can be opened; for a
    session with the status [in_progress] and at least one assignment,
    completion is asked for exactly when the badge is off. The badge is on
    exactly when some loaded assignment has no attempted trial. *)
Theorem completion_excludes_incomplete session :
  (shouldComplete session = true ->
   hasIncompleteActivities session = false /\ isInProgress session = true)
  /\ (forall l, status session = "in_progress" ->
                assignedActivities session = Some l -> l <> [] ->
                shouldComplete session = negb (hasIncompleteActivities session))
  /\ (hasIncompleteActivities session = true <->
      exists l sa, assignedActivities session = Some l /\ In sa l /\ ~ attempted sa).
Proof.
  split; [|split].
  - intros H. pose proof H as H'. apply shouldComplete_iff in H'.
    destruct H' as (Hs & l & Hl & Hne & _).
    split; [|now apply status_in_progress_isInProgress].
    unfold shouldComplete in H. unfold hasIncompleteActivities.
    rewrite Hs, Hl in *. simpl in H.
    destruct l as [|x l]; [congruence|]. cbn [length Nat.eqb] in *.
    change (0 <? S (length l)) with true in H. cbv iota in H.
    rewrite anyNotAttempted_negb, H. reflexivity.
  - intros l Hs Hl Hne. unfold shouldComplete, hasIncompleteActivities.
    rewrite Hs, Hl. simpl. destruct l as [|x l]; [congruence|].
    cbn [length Nat.eqb]. change (0 <? S (length l)) with true. cbv iota.
    rewrite anyNotAttempted_negb. now rewrite negb_involutive.
  - unfold hasIncompleteActivities. destruct (assignedActivities session) as [l|].
    + destruct l as [|x l].
      * simpl. split; [discriminate|].
        intros (l' & sa & Hl & Hin & _). inversion Hl; subst. destruct Hin.
      * cbn [length Nat.eqb]. rewrite anyNotAttempted_iff. split.
        -- intros (sa & Hin & Hn). now exists (x :: l), sa.
        -- intros (l' & sa & Hl & Hin & Hn). inversion Hl; subst. now exists sa.
    + split; [discriminate|]. intros (l' & sa & Hl & _). discriminate.
Qed.

(** X17. One pass of [checkSessionStatuses] asks for each session at most
    once and leaves the sessions as they are, so a second pass made before
    the answers arrive asks for the same completions again. Once the
    callbacks of a pass have run, no session in scope meets the condition
    any more and a further pass asks for nothing; the callbacks add and
    remove no session. *)
Theorem polling_settles w :
  trace (checkSessionStatuses (checkSessionStatuses w))
  = trace w
    ++ map completionRequest (List.filter shouldComplete (sessions (sess w)))
    ++ map completionRequest (List.filter shouldComplete (sessions (sess w)))
  /\ List.filter shouldComplete (sessions (sess (completionsApplied w))) = []
  /\ trace (checkSessionStatuses (completionsApplied w)) = trace (completionsApplied w)
  /\ map session_key (sessions (sess (completionsApplied w)))
     = map session_key (sessions (sess w)).
Proof.
  assert (Hsess : sessions (sess (completionsApplied w))
                  = map (fun x => if existsb (Pos.eqb (session_key x))
                                       (map session_key (List.filter shouldComplete (sessions (sess w))))
                                  then set_status "completed" x else x) (sessions (sess w))).
  { unfold completionsApplied. rewrite completions_fold_sessions. apply completions_fold. }
  assert (Hnone : List.filter shouldComplete (sessions (sess (completionsApplied w))) = []).
  { rewrite Hsess. apply completed_sessions_filtered.
    intros x Hx Hc. apply existsb_exists. exists (session_key x).
    split; [|apply Pos.eqb_refl]. apply in_map. apply List.filter_In. now split. }
  split; [|split; [exact Hnone | split]].
  - unfold checkSessionStatuses at 1. rewrite checkSessionStatuses_trace_from.
    rewrite checkSessionStatuses_keeps_sess.
    unfold checkSessionStatuses. rewrite checkSessionStatuses_trace_from.
    now rewrite <- app_assoc.
  - unfold checkSessionStatuses. rewrite checkSessionStatuses_trace_from, Hnone.
    simpl. now rewrite app_nil_r.
  - rewrite Hsess, map_map. apply map_ext. intros x.
    now destruct (existsb _ _).
Qed.

(** X18. Whatever the order of the calls that start and stop the status
    polling, and of the destruction of the scope, at most one interval runs,
    and it is the one the controller holds; after a stop or a destruction
    none runs. A start while an interval is held does nothing, not even the
    immediate check. *)
Theorem at_most_one_interval cs w :
  let p := snd (calls cs (w, idlePoller)) in
  running p = match statusCheckInterval p with Some h => [h] | None => [] end
  /\ length (running p) <= 1
  /\ running (snd (stopStatusCheckInterval (calls cs (w, idlePoller)))) = []
  /\ startStatusCheckInterval (startStatusCheckInterval (calls cs (w, idlePoller)))
     = startStatusCheckInterval (calls cs (w, idlePoller)).
Proof.
  assert (Inv : forall cs wp,
             running (snd wp)
             = match statusCheckInterval (snd wp) with Some h => [h] | None => [] end ->
             running (snd (calls cs wp))
             = match statusCheckInterval (snd (calls cs wp)) with
               | Some h => [h] | None => [] end).
  { clear. induction cs as [|c cs IH]; intros wp H; [exact H|].
    cbn [calls fold_left]. apply IH. destruct wp as [w p].
    now apply call_keeps_one_interval. }
  specialize (Inv cs (w, idlePoller) eq_refl).
  intros p. subst p. destruct (calls cs (w, idlePoller)) as [w' p]. cbn [snd] in *.
  split; [exact Inv|]. split; [|split].
  - rewrite Inv. destruct (statusCheckInterval p); simpl; lia.
  - unfold stopStatusCheckInterval. cbn [fst snd].
    destruct (statusCheckInterval p) as [h|] eqn:E; cbn [fst snd running].
    + rewrite Inv. cbn [List.filter]. now rewrite Nat.eqb_refl.
    + exact Inv.
  - unfold startStatusCheckInterval. cbn [fst snd].
    destruct (statusCheckInterval p) as [h|] eqn:E; cbn [fst snd statusCheckInterval].
    + now rewrite E.
    + reflexivity.
Qed.

(** X19. Filling in the activity of the assignments does not touch what the
    completion depends on: a session asks for completion, and shows the
    badge, after [loadSessionActivitiesForCard] exactly as it would with the
    assignments as the server sent them, and the callback sends the
    completion request, once, in that case only. Afterwards every assignment has an
    activity, and filling in again changes nothing. When the load fails the
    session has an empty list: no completion is asked for and no badge is
    shown. *)
Theorem population_keeps_completion available data session :
  shouldComplete (cardLoaded available data session)
  = shouldComplete (set_assignedActivities (Some data) session)
  /\ hasIncompleteActivities (cardLoaded available data session)
     = hasIncompleteActivities (set_assignedActivities (Some data) session)
  /\ Forall (fun sa => is_Some (sa_activity sa)) (map (populateActivity available) data)
  /\ map (populateActivity available) (map (populateActivity available) data)
     = map (populateActivity available) data
  /\ shouldComplete (cardFailed session) = false
  /\ hasIncompleteActivities (cardFailed session) = false
  /\ (forall w,
        trace (onSessionActivitiesLoaded available data session w)
        = trace w ++ (if shouldComplete (set_assignedActivities (Some data) session)
                      then [completionRequest session] else [])).
Proof.
  assert (Hna : forall sa, notAttempted (populateActivity available sa) = notAttempted sa).
  { intros sa. unfold populateActivity.
    destruct (lacksActivityInfo sa); [|reflexivity].
    now destruct (find_first _ available). }
  assert (Hall : forall l, allCompleted (map (populateActivity available) l) = allCompleted l).
  { induction l as [|sa l IH]; simpl; [reflexivity|]. now rewrite Hna, IH. }
  assert (Hsc : shouldComplete (cardLoaded available data session)
                = shouldComplete (set_assignedActivities (Some data) session)).
  { unfold shouldComplete, cardLoaded. simpl. now rewrite length_map, Hall. }
  split; [exact Hsc|]. split; [|split; [|split; [|split; [|split]]]].
  - unfold hasIncompleteActivities, cardLoaded. simpl.
    now rewrite length_map, !anyNotAttempted_negb, Hall.
  - apply List.Forall_forall. intros sa Hin. apply in_map_iff in Hin.
    destruct Hin as (x & <- & _). unfold populateActivity.
    destruct (lacksActivityInfo x) eqn:E.
    + destruct (find_first _ available); simpl; eexists; reflexivity.
    + unfold lacksActivityInfo in E. destruct (sa_activity x); [eexists; reflexivity | discriminate].
  - rewrite map_map. apply map_ext. intros sa. unfold populateActivity at 2 3.
    destruct (lacksActivityInfo sa) eqn:E.
    + destruct (find_first (fun a => Pos.eqb (activity_key a) (sa_activity_id sa)) available)
        as [localActivity|] eqn:F.
      * unfold populateActivity. cbn [set_sa_activity sa_activity_id].
        destruct (lacksActivityInfo (set_sa_activity _ sa)); [|reflexivity].
        now rewrite F.
      * unfold populateActivity. reflexivity.
    + unfold populateActivity. now rewrite E.
  - unfold shouldComplete, cardFailed. simpl.
    now destruct (String.eqb (status session) "in_progress").
  - reflexivity.
  - intros w. unfold onSessionActivitiesLoaded, checkSessionAutoComplete.
    rewrite Hsc.
    destruct (shouldComplete (set_assignedActivities (Some data) session)); simpl;
      [reflexivity | now rewrite app_nil_r].
Qed.

End CardProperties.

(** ** Session detail: assigning an activity *)

Section DetailProperties.

Import ActivitiesController SessionDetail.

(** X20. The check for a double assignment reads the list in scope, and
    nothing else. A request to assign is sent only for the selected
    activity of the selected session, with both counts at 0, and only when
    no assignment in the list is for that activity; when one is, the call
    sends nothing and ends in the [TypeError] of the missing
    [ToastService.warning]. The call changes nothing in the scope and the
    list grows only when an answer arrives, so a second click made before
    the answer sends the same request again, and when both answers arrive
    the list holds two assignments of the activity. Once a callback has
    added a record for the activity, the selection is cleared, so clicking
    again does nothing, and picking the same activity again is refused. *)
Theorem assignment_check_reads_the_list d :
  (forall session_id activity_id attempted correct,
      addActivityToSession d
      = Returned (Some (addSessionActivity session_id activity_id attempted correct)) ->
      selectedActivityId d = Some activity_id
      /\ (exists session, selectedSession d = Some session /\ session_key session = session_id)
      /\ attempted = 0%N /\ correct = 0%N
      /\ forall sa, In sa (sessionActivities d) -> sa_activity_id sa <> activity_id)
  /\ (forall id session sa,
        selectedActivityId d = Some id -> selectedSession d = Some session ->
        In sa (sessionActivities d) -> sa_activity_id sa = id ->
        addActivityToSession d = Threw)
  /\ (forall r sent,
        addActivityToSession d = Returned (Some r) ->
        clickAdd (d, sent) = Returned (d, sent ++ [r])
        /\ clickAdd (d, sent ++ [r]) = Returned (d, sent ++ [r; r]))
  /\ (forall id session response1 response2,
        selectedActivityId d = Some id -> selectedSession d = Some session ->
        sa_activity_id response1 = id -> sa_activity_id response2 = id ->
        snd (onActivityAdded (capturedActivity d) response1 d) = ActivityAssigned ->
        let d1 := fst (onActivityAdded (capturedActivity d) response1 d) in
        let d2 := fst (onActivityAdded (capturedActivity d) response2 d1) in
        length (sessionActivities d1) = S (length (sessionActivities d))
        /\ addActivityToSession d1 = Returned None
        /\ addActivityToSession (pickActivity id d1) = Threw
        /\ (snd (onActivityAdded (capturedActivity d) response2 d1) = ActivityAssigned ->
            exists x1 x2,
              sessionActivities d2 = sessionActivities d ++ [x1; x2]
              /\ sa_activity_id x1 = id /\ sa_activity_id x2 = id)).
Proof.
  split; [|split; [|split]].
  - intros sid aid att cor H. unfold addActivityToSession in H.
    destruct (selectedActivityId d) as [id|]; [|discriminate].
    destruct (selectedSession d) as [session|]; [|discriminate].
    destruct (existsb _ (sessionActivities d)) eqn:E; [discriminate|].
    inversion H; subst. split; [reflexivity|]. split; [now exists session|].
    split; [reflexivity|]. split; [reflexivity|].
    intros sa Hin Heq. assert (existsb (fun sa => Pos.eqb (sa_activity_id sa) aid)
                                       (sessionActivities d) = true).
    { apply existsb_exists. exists sa. split; [exact Hin|]. now apply Pos.eqb_eq. }
    congruence.
  - intros id session sa Hid Hs Hin Heq. unfold addActivityToSession. rewrite Hid, Hs.
    assert (E : existsb (fun sa => Pos.eqb (sa_activity_id sa) id) (sessionActivities d) = true).
    { apply existsb_exists. exists sa. split; [exact Hin|]. now apply Pos.eqb_eq. }
    now rewrite E.
  - intros r sent H. unfold clickAdd. cbn [fst snd]. rewrite H.
    split; [reflexivity|]. now rewrite <- app_assoc.
  - intros id session response1 response2 Hid Hs Hr1 Hr2 Hok d1 d2. subst d1 d2.
    assert (Hex : forall l x, sa_activity_id x = id ->
                    existsb (fun sa => Pos.eqb (sa_activity_id sa) id) (l ++ [x]) = true).
    { intros l x Hx. rewrite existsb_app. simpl. rewrite Hx, Pos.eqb_refl.
      now rewrite orb_true_r. }
    unfold onActivityAdded in *.
    destruct (SessionCards.lacksActivityInfo response1).
    + destruct (capturedActivity d) as [a|]; [|discriminate]. cbn [fst].
      split; [cbn; rewrite length_app; simpl; lia|].
      split; [reflexivity|].
      split; [unfold addActivityToSession, pickActivity; cbn; rewrite Hs;
              now rewrite Hex by exact Hr1|].
      destruct (SessionCards.lacksActivityInfo response2); cbn; intros _;
        eexists _, _; (split; [now rewrite <- app_assoc|]); split; assumption.
    + cbn [fst].
      split; [cbn; rewrite length_app; simpl; lia|].
      split; [reflexivity|].
      split; [unfold addActivityToSession, pickActivity; cbn; rewrite Hs;
              now rewrite Hex by exact Hr1|].
      destruct (SessionCards.lacksActivityInfo response2).
      * destruct (capturedActivity d) as [a|]; [|discriminate]. cbn. intros _.
        eexists _, _. (split; [now rewrite <- app_assoc|]); split; assumption.
      * cbn. intros _.
        eexists _, _. (split; [now rewrite <- app_assoc|]); split; assumption.
Qed.

(** X20 on two clicks in a row and the two answers that follow: two equal
    requests leave, and the list ends with two assignments of activity 1. *)
Lemma assignment_check_witness :
  addActivityToSession detail1 = Returned (Some (addSessionActivity 3 1 0 0))
  /\ clickAdd (detail1, []) = Returned (detail1, [] ++ [addSessionActivity 3 1 0 0])
  /\ clickAdd (detail1, [] ++ [addSessionActivity 3 1 0 0])
     = Returned (detail1, [] ++ [addSessionActivity 3 1 0 0; addSessionActivity 3 1 0 0])
  /\ length (sessionActivities
               (fst (onActivityAdded (capturedActivity detail1) assignment1
                       (fst (onActivityAdded (capturedActivity detail1) assignment1 detail1)))))
     = 2.
Proof.
  assert (H : addActivityToSession detail1 = Returned (Some (addSessionActivity 3 1 0 0)))
    by reflexivity.
  split; [exact H|].
  split; [exact (proj1 (proj1 (proj2 (proj2 (assignment_check_reads_the_list detail1)))
                          (addSessionActivity 3 1 0 0) [] H))|].
  split; [exact (proj2 (proj1 (proj2 (proj2 (assignment_check_reads_the_list detail1)))
                          (addSessionActivity 3 1 0 0) [] H))|].
  reflexivity.
Defined.

End DetailProperties.

(** ** ToastService *)

Section ToastProperties.

Import ToastService.

Lemma removeFirst_subset ref l t : In t (removeFirst ref l) -> In t l.
Proof.
  induction l as [|x l IH]; simpl; [tauto|].
  destruct (Nat.eqb (toast_ref x) ref); simpl; [now right|].
  intros [H|H]; [now left | right; now apply IH].
Qed.

Lemma removeFirst_keeps_others ref l t :
  In t l -> toast_ref t <> ref -> In t (removeFirst ref l).
Proof.
  induction l as [|x l IH]; simpl; [tauto|].
  intros [H|H] Hne.
  - subst x. apply Nat.eqb_neq in Hne. rewrite Hne. now left.
  - destruct (Nat.eqb (toast_ref x) ref); [exact H | right; now apply IH].
Qed.

Lemma removeFirst_absent ref l :
  ~ In ref (map toast_ref l) -> removeFirst ref l = l.
Proof.
  induction l as [|x l IH]; simpl; [reflexivity|].
  intros H. destruct (Nat.eqb_spec (toast_ref x) ref) as [E|E]; [tauto|].
  rewrite IH; [reflexivity | tauto].
Qed.

Lemma removeFirst_gone ref l :
  List.NoDup (map toast_ref l) -> ~ In ref (map toast_ref (removeFirst ref l)).
Proof.
  induction l as [|x l IH]; simpl; [tauto|].
  intros H. inversion H as [|? ? Hx Hl]; subst.
  destruct (Nat.eqb_spec (toast_ref x) ref) as [E|E].
  - now subst ref.
  - simpl. intros [H1|H1]; [contradiction | now apply IH].
Qed.

Lemma removeFirst_nodup ref l :
  List.NoDup (map toast_ref l) -> List.NoDup (map toast_ref (removeFirst ref l)).
Proof.
  induction l as [|x l IH]; simpl; [trivial|].
  intros H. inversion H as [|? ? Hx Hl]; subst.
  destruct (Nat.eqb (toast_ref x) ref); [exact Hl|].
  simpl. constructor; [|now apply IH].
  intros Hin. apply Hx. apply in_map_iff in Hin. destruct Hin as (t & Ht & Hin).
  apply in_map_iff. exists t. split; [exact Ht | now apply (removeFirst_subset ref)].
Qed.

Lemma steps_keep_distinct ss :
  forall st,
    List.NoDup (map toast_ref (toasts st)) ->
    (forall t, In t (toasts st) -> toast_ref t < shown st) ->
    List.NoDup (map toast_ref (toasts (steps ss st)))
    /\ (forall t, In t (toasts (steps ss st)) -> toast_ref t < shown (steps ss st)).
Proof.
  induction ss as [|s ss IH]; intros st Hn Hb; [now split|].
  cbn [steps fold_left]. apply IH; destruct s as [msg ty now|n]; simpl.
  - rewrite map_app. simpl. apply List.NoDup_app; [exact Hn | |].
    + constructor; [simpl; tauto | constructor].
    + intros x Hx [Hy|[]]. subst x. apply in_map_iff in Hx.
      destruct Hx as (t & Ht & Hin). specialize (Hb t Hin). lia.
  - now apply removeFirst_nodup.
  - intros t Hin. apply in_app_iff in Hin. destruct Hin as [Hin|[Hin|[]]].
    + specialize (Hb t Hin). lia.
    + subst t. simpl. lia.
  - intros t Hin. apply Hb. now apply (removeFirst_subset n).
Qed.

(** X21. Each toast goes away by its own timer and takes no other toast
    with it. After any sequence of calls of [show] and of timer callbacks,
    the callback of a toast removes that toast, if it is still in the list,
    and leaves every other toast in place; run a second time it changes
    nothing. A toast shown with no type, or with an empty one, has the type
    [info], and comes last in the list. *)
Theorem toast_expires_alone ss n :
  let st := steps ss empty in
  ~ In n (map toast_ref (toasts (expire n st)))
  /\ (forall t, In t (toasts st) -> toast_ref t <> n -> In t (toasts (expire n st)))
  /\ (forall t, In t (toasts (expire n st)) -> In t (toasts st))
  /\ expire n (expire n st) = expire n st
  /\ (forall msg now,
        exists t, toasts (fst (show msg None now st)) = toasts st ++ [t]
                  /\ message t = msg /\ type t = "info"
                  /\ snd (show msg None now st) = toast_ref t
                  /\ ~ In (toast_ref t) (map toast_ref (toasts st))).
Proof.
  intros st.
  destruct (steps_keep_distinct ss empty (List.NoDup_nil _) (fun t (H : In t []) => match H with end))
    as [Hn Hb]. fold st in Hn, Hb.
  split; [now apply removeFirst_gone|].
  split; [intros t; apply removeFirst_keeps_others|].
  split; [intros t; apply removeFirst_subset|].
  split.
  - unfold expire. simpl. f_equal. apply removeFirst_absent. now apply removeFirst_gone.
  - intros msg now. eexists. split; [reflexivity|]. repeat split.
    simpl. intros Hin. apply in_map_iff in Hin. destruct Hin as (t & Ht & Hin).
    specialize (Hb t Hin). lia.
Qed.

End ToastProperties.

(** ** The session view opening an activity *)

Section OpenProperties.

Import SessionsController.

Lemma lower_ascii_idem c : Js.lower_ascii (Js.lower_ascii c) = Js.lower_ascii c.
Proof. destruct c as [[] [] [] [] [] [] [] []]; reflexivity. Qed.

Lemma lower_keeps_separators c :
  Js.underscore_or_space (Js.lower_ascii c) = Js.underscore_or_space c.
Proof. destruct c as [[] [] [] [] [] [] [] []]; reflexivity. Qed.

Lemma toLowerCase_idem s : Js.toLowerCase (Js.toLowerCase s) = Js.toLowerCase s.
Proof. induction s as [|c s IH]; simpl; [reflexivity | now rewrite lower_ascii_idem, IH]. Qed.

Lemma normalize_strip s :
  Js.strip_underscore_space (Js.toLowerCase (Js.strip_underscore_space s))
  = Js.strip_underscore_space (Js.toLowerCase s).
Proof.
  induction s as [|c s IH]; simpl; [reflexivity|].
  destruct (Js.underscore_or_space c) eqn:E; simpl; rewrite lower_keeps_separators, E.
  - exact IH.
  - now rewrite IH.
Qed.

Lemma isInProgress_normal session :
  isInProgress session
  = String.eqb (Js.strip_underscore_space (Js.toLowerCase (status session))) "inprogress".
Proof.
  unfold isInProgress. destruct (status session); reflexivity.
Qed.

(** X22. The session view publishes a request, and schedules the switch to
    the Activities view, exactly when the session is in progress, the record
    passed (if one is passed) has no attempted trial, and the client of the
    session is found; the request then carries the activity, that client and
    the session. In every other case the slot and both scopes are left as
    they are and one toast is all that happens. *)
Theorem open_publishes_iff a session r w :
  ((isInProgress session = true /\ alreadyCompleted r = false
    /\ is_Some (clientOf session (sess w)))
   <-> exists p, trace (openActivityFromSession a session r w)
                 = trace w ++ [PendingPublished p; Deferred 0 NavigateToActivities])
  /\ (forall p, pendingActivity (root (openActivityFromSession a session r w)) = Some p ->
                pendingActivity (root w) <> Some p ->
                pending_activity p = a /\ pending_session p = Some session
                /\ pending_client p = clientOf session (sess w)
                /\ is_Some (pending_client p))
  /\ (~ (isInProgress session = true /\ alreadyCompleted r = false
         /\ is_Some (clientOf session (sess w))) ->
      exists k m, openActivityFromSession a session r w = emit (Toast k m) w).
Proof.
  assert (Hno : forall k m p,
             trace (emit (Toast k m) w)
             <> trace w ++ [PendingPublished p; Deferred 0 NavigateToActivities]).
  { intros k m p H. simpl in H. apply app_inv_head in H. discriminate. }
  unfold openActivityFromSession.
  destruct (isInProgress session) eqn:E1; simpl.
  - destruct (alreadyCompleted r) eqn:E2.
    + split; [split|split].
      * intros (_ & H & _). discriminate.
      * intros (p & H). now apply Hno in H.
      * simpl. intros p H Hn. congruence.
      * intros _. eauto.
    + destruct (clientOf session (sess w)) as [c|] eqn:E3.
      * split; [split|split].
        -- intros _. eexists. simpl. now rewrite <- app_assoc.
        -- intros _. repeat split. eexists; reflexivity.
        -- simpl. intros p H _. inversion H; subst. simpl.
           repeat split. eexists; reflexivity.
        -- intros H. exfalso. apply H. repeat split. eexists; reflexivity.
      * split; [split|split].
        -- intros (_ & _ & [c Hc]). discriminate.
        -- intros (p & H). now apply Hno in H.
        -- simpl. intros p H Hn. congruence.
        -- intros _. eauto.
  - split; [split|split].
    + intros (H & _). discriminate.
    + intros (p & H). now apply Hno in H.
    + simpl. intros p H Hn. congruence.
    + intros _. eauto.
Qed.

(** X23. On statuses made of ASCII characters, [isInProgress] looks through
    case, underscores and white space: two sessions whose statuses agree
    once lower-cased and stripped are judged alike, and lower-casing a
    status, or stripping its underscores and white space, does not change
    the verdict. *)
Theorem isInProgress_ignores_spelling s1 s2 :
  asciiOnly (status s1) = true ->
  asciiOnly (status s2) = true ->
  (Js.strip_underscore_space (Js.toLowerCase (status s1))
   = Js.strip_underscore_space (Js.toLowerCase (status s2)) ->
   isInProgress s1 = isInProgress s2)
  /\ isInProgress (set_status (Js.toLowerCase (status s1)) s1) = isInProgress s1
  /\ isInProgress (set_status (Js.strip_underscore_space (status s1)) s1) = isInProgress s1.
Proof.
  intros _ _. rewrite !isInProgress_normal. simpl.
  split; [now intros -> |]. split; [now rewrite toLowerCase_idem|].
  now rewrite normalize_strip.
Qed.

(** X23 on two spellings of the same status. *)
Lemma isInProgress_ignores_spelling_witness :
  asciiOnly "IN_PROGRESS" = true
  /\ asciiOnly "In Progress" = true
  /\ isInProgress (session_at 0 "IN_PROGRESS" []) = isInProgress (session_at 0 "In Progress" [])
  /\ isInProgress (session_at 0 "IN_PROGRESS" []) = true.
Proof.
  split; [reflexivity | split; [reflexivity | split; [|reflexivity]]].
  exact (proj1 (isInProgress_ignores_spelling (session_at 0 "IN_PROGRESS" [])
                  (session_at 0 "In Progress" []) eq_refl eq_refl) eq_refl).
Defined.

End OpenProperties.
